(** * Portfolio optimisation API: a shallow embedding of [main.py]

    The development follows the Python module top to bottom:

    - [Float]      values of Python/NumPy floats (NaN and the infinities kept,
                   finite values as exact rationals);
    - [Pandas]     the data frame operations the module calls;
    - [Runtime]    exceptions, printed lines, the upload stream and the
                   state-and-error monad [Py] every function runs in;
    - [Libraries]  the interface of the third-party calls whose code is not
                   part of the module (CSV parsing, eigenvalues, the
                   efficient-frontier solver);
    - the three static methods of [PortfolioOptimizer] and the two POST
      endpoints;
    - [StandIn]    one instance of the interface, with frames and a request
                   to run the model on;
    - [Design]     the formulas and predicates of the design document;
    - [PyPortfolioOpt] the cleaning of weights at the library's documented
                   defaults;
    - the properties of the design document, stated on these definitions.

    Arithmetic is exact: a finite float is a rational number, kept in
    lowest terms by every operation, so rounding error, overflow and the
    sign of zero are outside the model. *)

From Stdlib Require Import ZArith QArith Qround Qabs List String Bool Lia Lqa.
Import ListNotations.

Set Implicit Arguments.

(* ===================================================================== *)
(** * Floats *)
(* ===================================================================== *)

Module Float.

Local Open Scope Q_scope.

Inductive float : Type :=
| NaN
| NegInf
| Fin (q : Q)
| PosInf.

Definition isna (x : float) : bool :=
  match x with NaN => true | _ => false end.

Definition notna (x : float) : bool := negb (isna x).

Definition is_finite (x : float) : bool :=
  match x with Fin _ => true | _ => false end.

Definition Qltb (a b : Q) : bool := negb (Qle_bool b a).

(** [x <= y]; every comparison with NaN is False. *)
Definition leb (x y : float) : bool :=
  match x, y with
  | NaN, _ | _, NaN => false
  | NegInf, _ => true
  | _, PosInf => true
  | Fin a, Fin b => Qle_bool a b
  | _, _ => false
  end.

(** [x < y] *)
Definition ltb (x y : float) : bool :=
  match x, y with
  | NaN, _ | _, NaN => false
  | Fin a, Fin b => Qltb a b
  | NegInf, NegInf | PosInf, PosInf => false
  | NegInf, _ => true
  | _, PosInf => true
  | _, _ => false
  end.

(** [x > y] *)
Definition gtb (x y : float) : bool := ltb y x.

Definition sign_of (q : Q) : float :=
  if Qle_bool q 0 then NegInf else PosInf.

Definition neg (x : float) : float :=
  match x with
  | NaN => NaN
  | NegInf => PosInf
  | PosInf => NegInf
  | Fin q => Fin (- q)
  end.

Definition add (x y : float) : float :=
  match x, y with
  | NaN, _ | _, NaN => NaN
  | Fin a, Fin b => Fin (Qred (a + b))
  | NegInf, PosInf | PosInf, NegInf => NaN
  | NegInf, _ | _, NegInf => NegInf
  | PosInf, _ | _, PosInf => PosInf
  end.

Definition sub (x y : float) : float := add x (neg y).

(** an infinity times a finite value: NaN at zero, else the sign rule *)
Definition scale_inf (inf : float) (q : Q) : float :=
  if Qeq_bool q 0 then NaN
  else if Qle_bool q 0 then neg inf else inf.

Definition mul (x y : float) : float :=
  match x, y with
  | NaN, _ | _, NaN => NaN
  | Fin a, Fin b => Fin (Qred (a * b))
  | Fin a, i => scale_inf i a
  | i, Fin b => scale_inf i b
  | NegInf, NegInf | PosInf, PosInf => PosInf
  | _, _ => NegInf
  end.

(** NumPy division: [0/0] is NaN, [a/0] is an infinity of the sign of [a]. *)
Definition div (x y : float) : float :=
  match x, y with
  | NaN, _ | _, NaN => NaN
  | Fin a, Fin b =>
      if Qeq_bool b 0
      then (if Qeq_bool a 0 then NaN else sign_of a)
      else Fin (Qred (a / b))
  | Fin _, _ => Fin 0
  | i, Fin b => if Qle_bool 0 b then i else neg i
  | _, _ => NaN
  end.

Definition of_nat (n : nat) : float := Fin (inject_Z (Z.of_nat n)).

(** Python's [sum]: a left fold that starts at 0. *)
Definition sum (l : list float) : float := fold_left add l (Fin 0).

(** Round half to even, the rule of Python's [round]. *)
Definition round_half_even (q : Q) : Z :=
  let f := Qfloor q in
  match Qcompare (q - inject_Z f) (1 # 2) with
  | Lt => f
  | Gt => (f + 1)%Z
  | Eq => if Z.even f then f else (f + 1)%Z
  end.

(** [round(x, digits)] and [np.round(x, digits)] *)
Definition round_digits (digits : nat) (x : float) : float :=
  match x with
  | Fin q =>
      let scale := inject_Z (10 ^ Z.of_nat digits) in
      Fin (Qred (inject_Z (round_half_even (q * scale)) / scale))
  | other => other
  end.

(** [round(float(x), 6)] *)
Definition round6 (x : float) : float := round_digits 6 x.

Definition abs (x : float) : float :=
  match x with
  | Fin q => Fin (Qabs q)
  | NegInf => PosInf
  | other => other
  end.

(** Equality of values: NaN is not related to anything, finite values are
    compared as rationals. *)
Definition eqv (x y : float) : Prop :=
  match x, y with
  | Fin a, Fin b => a == b
  | NegInf, NegInf | PosInf, PosInf => True
  | _, _ => False
  end.

(** Sameness of cells as [drop_duplicates] sees it: two missing values are
    the same. *)
Definition same (x y : float) : bool :=
  match x, y with
  | NaN, NaN | NegInf, NegInf | PosInf, PosInf => true
  | Fin a, Fin b => Qeq_bool a b
  | _, _ => false
  end.

End Float.

Import Float.

Declare Scope float_scope.
Delimit Scope float_scope with fl.
Bind Scope float_scope with float.
Infix "+" := Float.add : float_scope.
Infix "-" := Float.sub : float_scope.
Infix "*" := Float.mul : float_scope.
Infix "/" := Float.div : float_scope.
Infix "<=?" := Float.leb : float_scope.
Infix "<?" := Float.ltb : float_scope.
Infix ">?" := Float.gtb (at level 70) : float_scope.

(* ===================================================================== *)
(** * Data frames *)
(* ===================================================================== *)

Module Pandas.

(** A cell of a frame as [read_csv] leaves it: a float, or text that
    [to_numeric] cannot read as a number (such a column has dtype
    [object]).  In a column with text pandas keeps every cell as text, the
    numeric-looking ones too, and compares them as text ('0.010' differs
    from '0.01'); here such a cell is a [Num], compared by value.  The two
    agree on frames whose columns are all numeric. *)
Inductive cell : Type :=
| Num (x : float)
| Str (s : string).

(** Rows carry their index label; a row shorter than the header is padded
    with missing values when a column is read. *)
Record Frame (C : Type) : Type := mkFrame {
  columns : list string;
  rows : list (string * list C)
}.

Arguments mkFrame {C} _ _.
Arguments columns {C} _.
Arguments rows {C} _.

Section Shape.
Context {C : Type}.

Definition nrows (df : Frame C) : nat := List.length (rows df).
Definition ncols (df : Frame C) : nat := List.length (columns df).

(** [df.shape] *)
Definition shape (df : Frame C) : nat * nat := (nrows df, ncols df).

(** [df.empty]: some axis has length 0. *)
Definition empty (df : Frame C) : bool :=
  (nrows df =? 0)%nat || (ncols df =? 0)%nat.

Variable missing : C.

Definition column (j : nat) (df : Frame C) : list C :=
  map (fun r => nth j (snd r) missing) (rows df).

Definition frame_columns (df : Frame C) : list (list C) :=
  map (fun j => column j df) (seq 0 (ncols df)).

(** the columns with their names, in header order *)
Definition items (df : Frame C) : list (string * list C) :=
  combine (columns df) (frame_columns df).
End Shape.

Definition is_str (c : cell) : bool :=
  match c with Str _ => true | Num _ => false end.

(** [pd.to_numeric(..., errors='coerce')] on one cell *)
Definition to_numeric_coerce (c : cell) : float :=
  match c with Num x => x | Str _ => NaN end.

Definition same_cell (a b : cell) : bool :=
  match a, b with
  | Num x, Num y => Float.same x y
  | Str s, Str t => String.eqb s t
  | _, _ => false
  end.

Fixpoint same_values (a b : list cell) : bool :=
  match a, b with
  | [], [] => true
  | x :: a', y :: b' => same_cell x y && same_values a' b'
  | _, _ => false
  end.

(** Keep the first of every group of entries the test holds equal. *)
Fixpoint keep_first {A : Type} (same : A -> A -> bool) (seen l : list A)
  : list A :=
  match l with
  | [] => []
  | x :: l' =>
      if existsb (same x) seen then keep_first same seen l'
      else x :: keep_first same (x :: seen) l'
  end.

(** [df.drop_duplicates()]: rows equal in every column, the first kept. *)
Definition drop_duplicates (df : Frame cell) : Frame cell :=
  mkFrame (columns df)
    (keep_first (fun r s => same_values (snd r) (snd s)) [] (rows df)).

(** [df[~df.index.duplicated(keep='first')]] *)
Definition drop_duplicated_index {C} (df : Frame C) : Frame C :=
  mkFrame (columns df)
    (keep_first (fun r s => String.eqb (fst r) (fst s)) [] (rows df)).

Definition map_cells {C D} (f : C -> D) (df : Frame C) : Frame D :=
  mkFrame (columns df) (map (fun r => (fst r, map f (snd r))) (rows df)).

(** [df.replace([np.inf, -np.inf], np.nan)] on one cell *)
Definition inf_to_nan (x : float) : float :=
  match x with Fin q => Fin q | _ => NaN end.

(** [df.isna().sum() / len(df)], one ratio per column *)
Definition nan_percentage (df : Frame float) : list (string * float) :=
  map (fun it =>
         (fst it,
          (of_nat (List.length (filter isna (snd it))) / of_nat (nrows df))%fl))
      (items NaN df).

Fixpoint select {A} (mask : list bool) (l : list A) : list A :=
  match mask, l with
  | b :: mask', x :: l' =>
      if b then x :: select mask' l' else select mask' l'
  | _, _ => []
  end.

(** [df.drop(columns=names)] *)
Definition drop_columns {C} (names : list string) (df : Frame C) : Frame C :=
  let keep := map (fun c => negb (existsb (String.eqb c) names)) (columns df) in
  mkFrame (select keep (columns df))
          (map (fun r => (fst r, select keep (snd r))) (rows df)).

(** [df.dropna()]: rows with a missing value in some column go. *)
Definition dropna (df : Frame float) : Frame float :=
  mkFrame (columns df)
    (filter (fun r =>
               forallb notna
                 (map (fun j => nth j (snd r) NaN) (seq 0 (ncols df))))
            (rows df)).

(** One step of a reduction with [skipna=True]: a missing value never
    wins, and [x] replaces the value held when it is [better]. *)
Definition pick_skipna (better : float -> float -> bool) (acc x : float)
  : float :=
  match acc with
  | NaN => x
  | _ => if isna x then acc else if better x acc then x else acc
  end.

Definition max_skipna : float -> float -> float :=
  pick_skipna (fun x acc => (acc <? x)%fl).

Definition min_skipna : float -> float -> float :=
  pick_skipna (fun x acc => (x <? acc)%fl).

(** [Series.max()] and [Series.min()] *)
Definition nanmax (l : list float) : float := fold_left max_skipna l NaN.
Definition nanmin (l : list float) : float := fold_left min_skipna l NaN.

(** [Series.mean()]: the mean of the values present, NaN when there is
    none. *)
Definition mean (l : list float) : float :=
  let present := filter notna l in
  (Float.sum present / of_nat (List.length present))%fl.

(** One entry of [DataFrame.cov()] with its defaults ([min_periods=None],
    [ddof=1]): the rows where both columns are present, the products of the
    deviations from the two means, divided by the number of such rows
    minus one; NaN without any such row. *)
Definition cov_pair (xs ys : list float) : float :=
  let both := filter (fun p => notna (fst p) && notna (snd p)) (combine xs ys) in
  match both with
  | [] => NaN
  | _ =>
      let mx := mean (map fst both) in
      let my := mean (map snd both) in
      (Float.sum (map (fun p => (fst p - mx) * (snd p - my)) both)
       / (of_nat (List.length both) - Fin 1))%fl
  end.

(** [df.mean()]: one value per column *)
Definition frame_mean (df : Frame float) : list float :=
  map mean (frame_columns NaN df).

(** [df.cov()]: one row per column *)
Definition frame_cov (df : Frame float) : list (list float) :=
  let cols := frame_columns NaN df in
  map (fun ci => map (fun cj => cov_pair ci cj) cols) cols.

(** [df.max().max()] and [df.min().min()] *)
Definition frame_max (df : Frame float) : float :=
  nanmax (map nanmax (frame_columns NaN df)).
Definition frame_min (df : Frame float) : float :=
  nanmin (map nanmin (frame_columns NaN df)).

End Pandas.

Import Pandas.

(* ===================================================================== *)
(** * Exceptions, printed lines and the monad of a request *)
(* ===================================================================== *)

Module Runtime.

(** Exceptions with the text they carry.  The f-strings of the module are
    kept as constructors holding the interpolated values. *)
Inductive exn : Type :=
| ValueError (m : message)
| EmptyDataError                (* pandas.errors, a subclass of ValueError *)
| UnicodeDecodeError            (* a subclass of ValueError *)
| AttributeError
| HTTPException (status_code : Z) (detail : message)
| LibraryError (value_error : bool) (text : string)
    (* raised inside NumPy, PyPortfolioOpt or its solver; the flag says
       whether its class derives from ValueError *)
with message : Type :=
(* validate_csv_format *)
| CsvIsEmpty
| TooFewObservations (found : nat)
| TooFewAssets (found : nat)
| NonNumericColumns (names : list string)
| LooksLikePrices
(* clean_data *)
| TooFewObservationsLeft (found : nat)
| TooFewAssetsLeft (found : nat)
(* optimize_portfolio *)
| ExpectedReturnsUndefined
| CovarianceUndefined
| CovarianceNotPositive
| OptimizationFailed (e : exn)
(* the endpoints *)
| RiskLevelOutOfRange (received : float)
| MaxWeightOutOfRange (received : float)
| NotACsvFile
| BadEncoding
| CsvUnreadable (e : exn)
| CsvFormatInvalid (e : exn)
| CleaningFailed (e : exn)
| OptimizationRejected (e : exn)
| InternalServerError (e : exn)    (* "Error interno del servidor: ..." *)
| InternalError (e : exn).         (* "Error interno: ..." *)

(** [isinstance(e, ValueError)] *)
Definition is_ValueError (e : exn) : bool :=
  match e with
  | ValueError _ | EmptyDataError | UnicodeDecodeError => true
  | LibraryError v _ => v
  | AttributeError | HTTPException _ _ => false
  end.

Definition is_HTTPException (e : exn) : bool :=
  match e with HTTPException _ _ => true | _ => false end.

(** The two messages that report too little data after cleaning, and the
    two of the format check. *)
Definition insufficient_data (m : message) : bool :=
  match m with
  | TooFewObservations _ | TooFewAssets _
  | TooFewObservationsLeft _ | TooFewAssetsLeft _ => true
  | _ => false
  end.

(** The lines the module prints. *)
Inductive line : Type :=
| ExtremeReturns (min_val max_val : float)
| DroppingColumns (names : list string)
| Processed (original_shape new_shape : nat * nat)
| VolatilityExceeds (expected_volatility risk_level : float)
| RiskConstraintApplied
| RiskConstraintFailed (e : exn)
| UsingMaxSharpe.

(** The uploaded file: one object for the whole request, read through a
    position that only moves forward. *)
Record UploadFile : Type := mkUpload {
  filename : option string;
  content : list Byte.byte;
  position : nat
}.

Record world : Type := mkWorld {
  stdout : list line;
  file : UploadFile
}.

(** A computation changes the world and ends in a value or an exception;
    what was printed or read before an exception stays printed or read. *)
Definition Py (A : Type) : Type := world -> world * (exn + A).

Definition ret {A} (x : A) : Py A := fun w => (w, inr x).

Definition raise {A} (e : exn) : Py A := fun w => (w, inl e).

Definition bind {A B} (c : Py A) (k : A -> Py B) : Py B :=
  fun w =>
    match c w with
    | (w', inr x) => k x w'
    | (w', inl e) => (w', inl e)
    end.

(** [try: c  except Exception as e: h e] *)
Definition try_except {A} (c : Py A) (h : exn -> Py A) : Py A :=
  fun w =>
    match c w with
    | (w', inl e) => h e w'
    | r => r
    end.

(** [try: c  except ValueError as e: h e] *)
Definition try_except_ValueError {A} (c : Py A) (h : exn -> Py A) : Py A :=
  try_except c (fun e => if is_ValueError e then h e else raise e).

(** the result of a library call enters the computation *)
Definition call {A} (r : exn + A) : Py A := fun w => (w, r).

Definition print (l : line) : Py unit :=
  fun w => (mkWorld (stdout w ++ [l]) (file w), inr tt).

(** [await file.read()]: what is left of the stream, which is then at its
    end. *)
Definition file_read : Py (list Byte.byte) :=
  fun w =>
    let f := file w in
    (mkWorld (stdout w)
             (mkUpload (filename f) (content f) (List.length (content f))),
     inr (skipn (position f) (content f))).

Definition when_ (b : bool) (c : Py unit) : Py unit :=
  if b then c else ret tt.

End Runtime.

Import Runtime.

Declare Scope py_scope.
Delimit Scope py_scope with py.
Notation "x <- c ;; k" := (bind c (fun x => k))
  (at level 61, c at next level, right associativity) : py_scope.
Notation "c ;; k" := (bind c (fun _ => k))
  (at level 61, right associativity) : py_scope.
Local Open Scope py_scope.

(* ===================================================================== *)
(** * The libraries behind the module *)
(* ===================================================================== *)

(** A pandas [Series] of floats: a value per label. *)
Definition Series : Type := list (string * float).

(** A weight per ticker, in the order of the columns ([OrderedDict]). *)
Definition weights : Type := list (string * float).

(** [(expected_return, expected_volatility, sharpe_ratio)] *)
Definition performance : Type := (float * float * float)%type.

(** The calls whose code lives in pandas, NumPy and PyPortfolioOpt.  An
    [EfficientFrontier] object is a value of [EF]; a solve returns the
    object with its weights set.  The two laws are the library facts the
    endpoints meet on an exhausted stream: empty bytes decode to the empty
    text, and [read_csv] finds no columns in it. *)
Class Libraries : Type := {
  decode_utf8 : list Byte.byte -> option string;
  read_csv : string -> exn + Frame cell;
  eigvals : list (list float) -> exn + list float;
  EF : Type;
  EfficientFrontier : Series -> list (list float) -> float * float -> exn + EF;
  max_sharpe : EF -> exn + EF;
  efficient_risk : EF -> float -> exn + EF;
  clean_weights : EF -> exn + weights;
  portfolio_performance : EF -> exn + performance;
  decode_utf8_empty : decode_utf8 [] = Some EmptyString;
  read_csv_empty : read_csv EmptyString = inl EmptyDataError
}.

(* ===================================================================== *)
(** * class PortfolioOptimizer *)
(* ===================================================================== *)

Record metrics : Type := mkMetrics {
  expected_return : float;
  expected_volatility : float;
  sharpe_ratio : float;
  active_positions : nat;
  total_weight : float
}.

(** The dictionary [optimize_portfolio] returns. *)
Record result : Type := mkResult {
  optimal_portfolio : weights;
  portfolio_metrics : metrics
}.

Module PortfolioOptimizer.

(** The columns that are not numeric: dtype [object], and [to_numeric]
    raises on them. *)
Definition non_numeric_cols (df : Frame cell) : list string :=
  map fst (filter (fun it => existsb is_str (snd it)) (items (Num NaN) df)).

(** [validate_csv_format(df)] *)
Definition validate_csv_format (df : Frame cell) : Py unit :=
  if empty df then raise (ValueError CsvIsEmpty)
  else if (nrows df <? 30)%nat
  then raise (ValueError (TooFewObservations (nrows df)))
  else if (ncols df <? 2)%nat
  then raise (ValueError (TooFewAssets (ncols df)))
  else
    match non_numeric_cols df with
    | (_ :: _) as bad => raise (ValueError (NonNumericColumns bad))
    | [] =>
        let values := map_cells to_numeric_coerce df in
        let max_val := frame_max values in
        let min_val := frame_min values in
        if (max_val >? Fin 1)%fl || (min_val <? Fin (-1))%fl then
          if (max_val >? Fin 100)%fl
          then raise (ValueError LooksLikePrices)
          else print (ExtremeReturns min_val max_val)
        else ret tt
    end.

(** Lines 81 to 105 of [clean_data]: the frame after the duplicates, the
    conversion, the columns with more than 10% missing and the rows with a
    missing value are gone, and the names of the columns dropped. *)
Definition cleaned (df : Frame cell) : list string * Frame float :=
  let df1 := drop_duplicated_index (drop_duplicates df) in
  let df2 := map_cells inf_to_nan (map_cells to_numeric_coerce df1) in
  let problematic_cols :=
    map fst (filter (fun p => (snd p >? Fin 0.1)%fl) (nan_percentage df2)) in
  let df3 :=
    match problematic_cols with
    | [] => df2
    | _ => drop_columns problematic_cols df2
    end in
  (problematic_cols, dropna df3).

(** [clean_data(df)] *)
Definition clean_data (df : Frame cell) : Py (Frame float) :=
  let original_shape := shape df in
  let '(problematic_cols, df') := cleaned df in
  when_ (negb (Nat.eqb (List.length problematic_cols) 0))
        (print (DroppingColumns problematic_cols)) ;;
  print (Processed original_shape (shape df')) ;;
  if (nrows df' <? 30)%nat
  then raise (ValueError (TooFewObservationsLeft (nrows df')))
  else if (ncols df' <? 2)%nat
  then raise (ValueError (TooFewAssetsLeft (ncols df')))
  else ret df'.

Definition TRADING_DAYS : float := Fin 252.

(** [mu = df.mean() * TRADING_DAYS] *)
Definition annual_mean (df : Frame float) : Series :=
  combine (columns df) (map (fun m => (m * TRADING_DAYS)%fl) (frame_mean df)).

(** [S = df.cov() * TRADING_DAYS] *)
Definition annual_cov (df : Frame float) : list (list float) :=
  map (map (fun c => (c * TRADING_DAYS)%fl)) (frame_cov df).

(** the dictionary built at lines 165 to 174 *)
Definition prepare_result (cleaned_weights : weights) (p : performance)
  : result :=
  let '(ret_, vol, sharpe) := p in
  mkResult cleaned_weights
    (mkMetrics (round6 ret_) (round6 vol) (round6 sharpe)
       (List.length
          (filter (fun w => (w >? Fin 0.001)%fl) (map snd cleaned_weights)))
       (round6 (Float.sum (map snd cleaned_weights)))).

Section WithLibraries.
Context {L : Libraries}.

(** Lines 154 to 162: the second solve.  [locals] are [cleaned_weights]
    and the performance triple as the first solve left them; an exception
    leaves them as assigned so far and is printed, not raised. *)
Definition apply_risk_constraint (mu : Series) (S : list (list float))
    (risk_level max_weight : float) (locals : weights * performance)
  : Py (weights * performance) :=
  let keep (now : weights * performance) (e : exn) :=
    print (RiskConstraintFailed e) ;;
    print UsingMaxSharpe ;;
    ret now in
  try_except
    (ef_risk <- call (EfficientFrontier mu S (Fin 0, max_weight)) ;;
     ef_risk <- call (efficient_risk ef_risk risk_level) ;;
     cleaned_weights <- call (clean_weights ef_risk) ;;
     try_except
       (p <- call (portfolio_performance ef_risk) ;;
        print RiskConstraintApplied ;;
        ret (cleaned_weights, p))
       (keep (cleaned_weights, snd locals)))
    (keep locals).

(** Lines 138 to 176: the body of the outer [try]. *)
Definition solve (mu : Series) (S : list (list float))
    (risk_level max_weight : float) : Py result :=
  ef <- call (EfficientFrontier mu S (Fin 0, max_weight)) ;;
  ef <- call (max_sharpe ef) ;;
  cleaned_weights <- call (clean_weights ef) ;;
  p <- call (portfolio_performance ef) ;;
  let '(_, vol, _) := p in
  final <-
    (if (vol >? risk_level)%fl then
       print (VolatilityExceeds vol risk_level) ;;
       apply_risk_constraint mu S risk_level max_weight (cleaned_weights, p)
     else ret (cleaned_weights, p)) ;;
  ret (prepare_result (fst final) (snd final)).

(** Lines 120 to 131: the annualised statistics and their two checks. *)
Definition estimate (df : Frame float) : Py (Series * list (list float)) :=
  let mu := annual_mean df in
  let S := annual_cov df in
  if existsb isna (map snd mu)
  then raise (ValueError ExpectedReturnsUndefined)
  else if existsb (existsb isna) S
  then raise (ValueError CovarianceUndefined)
  else ret (mu, S).

(** Lines 133 to 136: the test on the eigenvalues. *)
Definition check_covariance (S : list (list float)) : Py unit :=
  eigenvalues <- call (eigvals S) ;;
  if existsb (fun ev => (ev <=? Fin 0)%fl) eigenvalues
  then raise (ValueError CovarianceNotPositive)
  else ret tt.

(** [optimize_portfolio(df, risk_level, max_weight)] *)
Definition optimize_portfolio (df : Frame float)
    (risk_level max_weight : float) : Py result :=
  stats <- estimate df ;;
  check_covariance (snd stats) ;;
  try_except (solve (fst stats) (snd stats) risk_level max_weight)
             (fun e => raise (ValueError (OptimizationFailed e))).

End WithLibraries.

End PortfolioOptimizer.

Import PortfolioOptimizer.

(* ===================================================================== *)
(** * The endpoints *)
(* ===================================================================== *)

Module Endpoints.

Definition lower_char (c : Ascii.ascii) : Ascii.ascii :=
  let n := Ascii.nat_of_ascii c in
  if ((65 <=? n) && (n <=? 90))%nat then Ascii.ascii_of_nat (n + 32) else c.

(** [s.lower()], on the ASCII letters *)
Fixpoint lower (s : string) : string :=
  match s with
  | EmptyString => EmptyString
  | String c s' => String (lower_char c) (lower s')
  end.

(** [s.endswith(suffix)] *)
Definition endswith (s suffix : string) : bool :=
  let n := String.length s in
  let m := String.length suffix in
  (m <=? n)%nat && String.eqb (substring (n - m) m s) suffix.

(** [0.01 <= x <= hi] *)
Definition in_range (x hi : float) : bool :=
  (Fin 0.01 <=? x)%fl && (x <=? hi)%fl.

Section WithLibraries.
Context {L : Libraries}.

(** [contents.decode('utf-8')] *)
Definition decode (contents : list Byte.byte) : Py string :=
  match decode_utf8 contents with
  | Some text => ret text
  | None => raise UnicodeDecodeError
  end.

(** [file.filename.lower()] *)
Definition filename_lower : Py string :=
  fun w =>
    match filename (file w) with
    | Some name => (w, inr (lower name))
    | None => (w, inl AttributeError)
    end.

(** Steps 1 to 4 of the main endpoint (lines 218 to 260): the parameters
    and the file name are checked, the upload is read and parsed, and the
    frame passes [validate_csv_format]. *)
Definition receive (risk_level max_weight : float) : Py (Frame cell) :=
  (* 1 *)
  when_ (negb (in_range risk_level (Fin 2)))
        (raise (HTTPException 422 (RiskLevelOutOfRange risk_level))) ;;
  when_ (negb (in_range max_weight (Fin 1)))
        (raise (HTTPException 422 (MaxWeightOutOfRange max_weight))) ;;
  (* 2 *)
  name <- filename_lower ;;
  when_ (negb (endswith name ".csv"))
        (raise (HTTPException 422 NotACsvFile)) ;;
  (* 3 *)
  df <- try_except
          (contents <- file_read ;;
           text <- decode contents ;;
           call (read_csv text))
          (fun e =>
             match e with
             | UnicodeDecodeError => raise (HTTPException 422 BadEncoding)
             | _ => raise (HTTPException 422 (CsvUnreadable e))
             end) ;;
  (* 4 *)
  try_except_ValueError (validate_csv_format df)
    (fun e => raise (HTTPException 422 (CsvFormatInvalid e))) ;;
  ret df.

(** [POST /optimize-portfolio]; the upload is the [file] of the world. *)
Definition optimize_portfolio_endpoint (risk_level max_weight : float)
  : Py weights :=
  try_except
    (df <- receive risk_level max_weight ;;
     (* 5 *)
     df_clean <- try_except_ValueError (clean_data df)
       (fun e => raise (HTTPException 422 (CleaningFailed e))) ;;
     (* 6 *)
     result <- try_except_ValueError
       (optimize_portfolio df_clean risk_level max_weight)
       (fun e => raise (HTTPException 422 (OptimizationRejected e))) ;;
     (* 7 *)
     ret (optimal_portfolio result))
    (fun e =>
       if is_HTTPException e then raise e
       else raise (HTTPException 500 (InternalServerError e))).

(** [POST /optimize-portfolio-detailed]: the main endpoint on the same
    [file] object, then a second read of it. *)
Definition optimize_portfolio_detailed_endpoint (risk_level max_weight : float)
  : Py result :=
  try_except
    (_ <- optimize_portfolio_endpoint risk_level max_weight ;;
     contents <- file_read ;;
     text <- decode contents ;;
     df <- call (read_csv text) ;;
     df_clean <- clean_data df ;;
     optimize_portfolio df_clean risk_level max_weight)
    (fun e =>
       if is_HTTPException e then raise e
       else raise (HTTPException 500 (InternalError e))).

End WithLibraries.

End Endpoints.

Import Endpoints.

(* ===================================================================== *)
(** * A stand-in for the libraries *)
(* ===================================================================== *)

(** The properties below hold for every instance of [Libraries].  To run
    the model on examples this instance is used: text is ASCII, the CSV
    reader returns one known frame for any text that is not empty,
    eigenvalues are read off the diagonal (exact for
    uncorrelated columns), the only portfolio the solver finds is the
    equal-weight one, and [clean_weights] follows the defaults
    PyPortfolioOpt documents ([cutoff=1e-4], [rounding=5]). *)
Module StandIn.

Record frontier : Type := mkFrontier {
  ef_mu : Series;
  ef_cov : list (list float);
  ef_bounds : float * float;
  ef_weights : option (list float)
}.

Definition dot (a b : list float) : float :=
  Float.sum (map (fun p => (fst p * snd p)%fl) (combine a b)).

(** [sqrt] to six decimals *)
Definition sqrt6 (x : float) : float :=
  match x with
  | Fin q =>
      if Qle_bool 0 q
      then Fin (Qred (inject_Z (Z.sqrt (Qfloor (q * 1000000000000))) / 1000000))
      else NaN
  | PosInf => PosInf
  | _ => NaN
  end.

Definition volatility (S : list (list float)) (w : list float) : float :=
  sqrt6 (dot w (map (fun row => dot row w) S)).

Definition equal_weights (ef : frontier) : list float :=
  let n := List.length (ef_mu ef) in
  map (fun _ => (Fin 1 / of_nat n)%fl) (ef_mu ef).

Definition with_weights (ef : frontier) (w : list float) : frontier :=
  mkFrontier (ef_mu ef) (ef_cov ef) (ef_bounds ef) (Some w).

Definition diagonal (S : list (list float)) : list float :=
  map (fun p => nth (fst p) (snd p) NaN) (combine (seq 0 (List.length S)) S).

(** [clean_weights(cutoff=1e-4, rounding=5)] *)
Definition clean (names : list string) (w : list float) : weights :=
  combine names
    (map (fun x =>
            round_digits 5
              (if (Float.abs x <? Fin 0.0001)%fl then Fin 0 else x))
         w).

Definition not_computed : exn := LibraryError false "Weights not yet computed".

Definition sample_columns : list string := ["AAA"; "BBB"; "CCC"]%string.

(** Thirty days of three uncorrelated return series: with [u] the odd
    numbers from -29 to 29, a line, a centred parabola and a cubic chosen
    orthogonal to the line, each around its own daily mean. *)
Definition sample_row (t : nat) : list Q :=
  let u := inject_Z (2 * Z.of_nat t - 29) in
  [ (4 # 10000) + u / 2000;
    (3 # 10000) + (u * u - (899 # 3)) / 100000;
    (2 # 10000) + (u * u * u - (2693 # 5) * u) / 2000000 ]%Q.

Definition day (t : nat) : string :=
  String (Ascii.ascii_of_nat (65 + t / 10))
         (String (Ascii.ascii_of_nat (48 + t mod 10)) EmptyString).

Definition sample : Frame cell :=
  mkFrame sample_columns
    (map (fun t => (day t, map (fun q => Num (Fin q)) (sample_row t)))
         (seq 0 30)).

#[refine] Instance libraries (known : Frame cell) : Libraries := {|
  decode_utf8 := fun b => Some (string_of_list_byte b);
  read_csv := fun text =>
    match text with
    | EmptyString => inl EmptyDataError
    | _ => inr known
    end;
  eigvals := fun S => inr (diagonal S);
  EF := frontier;
  EfficientFrontier := fun mu S bounds => inr (mkFrontier mu S bounds None);
  max_sharpe := fun ef => inr (with_weights ef (equal_weights ef));
  efficient_risk := fun ef target =>
    if (volatility (ef_cov ef) (equal_weights ef) <=? target)%fl
    then inr (with_weights ef (equal_weights ef))
    else inl (LibraryError false "infeasible");
  clean_weights := fun ef =>
    match ef_weights ef with
    | Some w => inr (clean (map fst (ef_mu ef)) w)
    | None => inl not_computed
    end;
  portfolio_performance := fun ef =>
    match ef_weights ef with
    | Some w =>
        let r := dot w (map snd (ef_mu ef)) in
        let v := volatility (ef_cov ef) w in
        inr (r, v, (r / v)%fl)
    | None => inl not_computed
    end
|}.
Proof.
  - reflexivity.
  - reflexivity.
Defined.

(** ** Requests to run the model on *)

(** thirty days on which two assets are quoted by price *)
Definition prices : Frame cell :=
  mkFrame ["AAA"; "BBB"]%string
    (map (fun t =>
            (day t, [Num (Fin (inject_Z (101 + Z.of_nat t)));
                     Num (Fin (inject_Z (50 + Z.of_nat t)))]))
         (seq 0 30)).

(** the first two of those days *)
Definition two_days_of_prices : Frame cell :=
  mkFrame (columns prices) (firstn 2 (rows prices)).

(** thirty days with the same returns on each *)
Definition repeated : Frame cell :=
  mkFrame ["AAA"; "BBB"]%string
    (map (fun t => (day t, [Num (Fin 0.01); Num (Fin (-0.02))])) (seq 0 30)).

(** [sample] with the swings of its first asset scaled by a millionth *)
Definition quiet : Frame cell :=
  mkFrame sample_columns
    (map (fun t =>
            (day t,
             match sample_row t with
             | a :: rest =>
                 Num (Fin ((4 # 10000) + (a - (4 # 10000)) / 1000000))
                 :: map (fun q => Num (Fin q)) rest
             | [] => []
             end))
         (seq 0 30)).

Definition upload : UploadFile :=
  mkUpload (Some "returns.csv"%string)
           (list_byte_of_string "date,AAA,BBB,CCC") 0.

Definition start : world := mkWorld [] upload.

End StandIn.

(* ===================================================================== *)
(** * The design document's own words *)
(* ===================================================================== *)

Module Design.

Local Open Scope Q_scope.

Definition Qsum (l : list Q) : Q := fold_right Qplus 0 l.

Definition count (l : list Q) : Q := inject_Z (Z.of_nat (List.length l)).

(** "mean(returns_i)" *)
Definition daily_mean (xs : list Q) : Q := Qsum xs / count xs.

(** "sampleCovariance(returns) ... using the standard unbiased (N-1
    denominator) estimator" *)
Definition sample_covariance (xs ys : list Q) : Q :=
  Qsum (map (fun p => (fst p - daily_mean xs) * (snd p - daily_mean ys))
            (combine xs ys))
  / (count xs - 1).

(** "mu_i = mean(returns_i) x 252" *)
Definition expected_return_vector (cols : list (list Q)) : list Q :=
  map (fun c => daily_mean c * 252) cols.

(** "Sigma = sampleCovariance(returns) x 252" *)
Definition covariance_matrix (cols : list (list Q)) : list (list Q) :=
  map (fun ci => map (fun cj => sample_covariance ci cj * 252) cols) cols.

(** the eigenvalue floor the document proposes *)
Definition epsilon : Q := 1e-10.

(** some cell of the matrix passes the test *)
Definition any_cell (p : float -> bool) (cols : list (list float)) : bool :=
  existsb (existsb p) cols.

(** A computation that only prints: the same lines and the same outcome
    from every world, the upload left as it was. *)
Definition prints_only {A} (c : Py A) : Prop :=
  exists (out : list line) (r : exn + A),
    forall w, c w = (mkWorld (stdout w ++ out) (file w), r).

(** The upload has been read to its end. *)
Definition consumed (w : world) : Prop :=
  position (file w) = List.length (content (file w)).

(** [c], started where [P] holds, ends with a value in a world satisfying
    [Q] or with an exception in a world satisfying [R]. *)
Definition triple {A} (P : world -> Prop) (c : Py A)
    (Q : A -> world -> Prop) (R : exn -> world -> Prop) : Prop :=
  forall w, P w ->
    match c w with
    | (w', inr x) => Q x w'
    | (w', inl e) => R e w'
    end.

(** The libraries with another solver for the risk-constrained problem. *)
Definition with_efficient_risk (L : Libraries)
    (solver : @EF L -> float -> exn + @EF L) : Libraries :=
  {| decode_utf8 := @decode_utf8 L;
     read_csv := @read_csv L;
     eigvals := @eigvals L;
     EF := @EF L;
     EfficientFrontier := @EfficientFrontier L;
     max_sharpe := @max_sharpe L;
     efficient_risk := solver;
     clean_weights := @clean_weights L;
     portfolio_performance := @portfolio_performance L;
     decode_utf8_empty := @decode_utf8_empty L;
     read_csv_empty := @read_csv_empty L |}.

End Design.

Import Design.

(* ===================================================================== *)
(** * More stand-ins: a second solve that succeeds *)
(* ===================================================================== *)

Module Fixtures.

Import StandIn.

(** return, volatility and their ratio for the weights of the object *)
Definition performance_of (ef : frontier) : exn + performance :=
  match ef_weights ef with
  | Some w =>
      let r := dot w (map snd (ef_mu ef)) in
      let v := volatility (ef_cov ef) w in
      inr (r, v, (r / v)%fl)
  | None => inl not_computed
  end.

(** The stand-in of [StandIn.libraries] with a solver for the
    risk-constrained problem and a performance call of one's choice. *)
Definition libraries_with (known : Frame cell)
    (risk_solver : frontier -> float -> exn + frontier)
    (performance : frontier -> exn + performance) : Libraries :=
  {| decode_utf8 := fun b => Some (string_of_list_byte b);
     read_csv := fun text =>
       match text with
       | EmptyString => inl EmptyDataError
       | _ => inr known
       end;
     eigvals := fun S => inr (diagonal S);
     EF := frontier;
     EfficientFrontier := fun mu S bounds => inr (mkFrontier mu S bounds None);
     max_sharpe := fun ef => inr (with_weights ef (equal_weights ef));
     efficient_risk := risk_solver;
     clean_weights := fun ef =>
       match ef_weights ef with
       | Some w => inr (clean (map fst (ef_mu ef)) w)
       | None => inl not_computed
       end;
     portfolio_performance := performance;
     decode_utf8_empty := eq_refl;
     read_csv_empty := eq_refl |}.

(** nothing in the first asset, half in each of the other two *)
Definition calm_weights : list float := [Fin 0; Fin 0.5; Fin 0.5].

Definition calm_solver (ef : frontier) (target : float) : exn + frontier :=
  inr (with_weights ef calm_weights).

(** a performance call that gives up on a portfolio whose first weight
    is zero *)
Definition touchy_performance (ef : frontier) : exn + performance :=
  match ef_weights ef with
  | Some (Fin q :: _) =>
      if Qeq_bool q 0 then inl (LibraryError false "no performance")
      else performance_of ef
  | _ => performance_of ef
  end.

(** the first day of [sample], cleaned *)
Definition single_day : Frame float :=
  mkFrame sample_columns
    (firstn 1 (rows (map_cells to_numeric_coerce sample))).

(** five days of [sample], spread over the month *)
Definition five_days : Frame float :=
  mkFrame sample_columns
    (map (fun t => (day t, map Fin (sample_row t))) [0; 7; 15; 22; 29]%nat).

(** [sample] with a fourth asset that has no quote on the first four
    days *)
Definition gappy : Frame cell :=
  mkFrame (sample_columns ++ ["DDD"%string])
    (map (fun t =>
            (day t,
             map (fun q => Num (Fin q)) (sample_row t)
             ++ [Num (if (t <? 4)%nat then NaN else Fin 0.001)]))
         (seq 0 30)).


(** an upload that carries no file name *)
Definition nameless : world :=
  mkWorld [] (mkUpload None (list_byte_of_string "date,AAA,BBB,CCC") 0).

End Fixtures.

(* ===================================================================== *)
(** * clean_weights at its defaults *)
(* ===================================================================== *)

Module PyPortfolioOpt.




End PyPortfolioOpt.

Import PyPortfolioOpt.

(* ===================================================================== *)
(** * Shapes of frames *)
(* ===================================================================== *)

Module Invariants.

(** neither of the two infinities *)
Definition no_infinity (x : float) : Prop :=
  match x with NegInf | PosInf => False | _ => True end.

(** every cell under the header is a finite number *)
Definition all_finite (df : Frame float) : Prop :=
  Forall (Forall (fun x => is_finite x = true)) (frame_columns NaN df).

(** every row has one cell per column *)
Definition rectangular {C} (df : Frame C) : Prop :=
  Forall (fun r => List.length (snd r) = ncols df) (rows df).

(** no index label occurs twice *)
Definition distinct_labels {C} (df : Frame C) : Prop :=
  NoDup (map fst (rows df)).

(** no row repeats the values of an earlier one *)
Definition distinct_rows (df : Frame cell) : Prop :=
  ForallOrdPairs (fun earlier later =>
                    same_values (snd later) (snd earlier) = false)
                 (rows df).

(** A magnitude far inside the range of a float: the squares of values up
    to it, and the sums of any number of such squares a frame can hold, are
    below the largest float (about 1.8e308), so that the arithmetic of the
    statistics neither overflows nor yields [inf - inf]. *)
Definition safe_magnitude : Q := inject_Z (10 ^ 100).

(** every finite cell is at most [bound] in absolute value *)
Definition cells_within (bound : Q) (df : Frame float) : Prop :=
  Forall (Forall (fun x => match x with
                           | Fin q => (Qabs q <= bound)%Q
                           | _ => True
                           end))
         (frame_columns NaN df).

(** every cell is a finite number *)
Definition numeric_cells (df : Frame cell) : Prop :=
  Forall (fun r => Forall (fun c => exists q, c = Num (Fin q)) (snd r))
         (rows df).

End Invariants.

Import Invariants.

(* ===================================================================== *)
(** * Kinds of failure of a request *)
(* ===================================================================== *)

Module Outcomes.

(** a 422 response *)
Definition unprocessable (e : exn) : Prop :=
  exists detail, e = HTTPException 422 detail.

(** an exception of [np.linalg.eigvals] that is not a [ValueError]: the
    only exception that leaves [optimize_portfolio] past the handler of
    step 6 *)
Definition escapes_step_6 {L : Libraries} (e : exn) : Prop :=
  is_ValueError e = false /\ exists S, eigvals S = inl e.

(** what the last handler of the main endpoint makes of an exception *)
Definition answer_to (e : exn) : exn :=
  if is_HTTPException e then e
  else HTTPException 500 (InternalServerError e).

End Outcomes.

Import Outcomes.

(* ===================================================================== *)
(** * Order and extrema of floats *)
(* ===================================================================== *)

Module FloatFacts.

Local Open Scope Q_scope.

Lemma Qle_bool_false (a b : Q) : Qle_bool a b = false <-> b < a.
Proof.
  split; intros H.
  - apply Qnot_le_lt. intros Hle. apply Qle_bool_iff in Hle. congruence.
  - destruct (Qle_bool a b) eqn:E; [|reflexivity].
    apply Qle_bool_iff in E. lra.
Qed.

Lemma Qltb_iff (a b : Q) : Qltb a b = true <-> a < b.
Proof. unfold Qltb. rewrite negb_true_iff. apply Qle_bool_false. Qed.

Lemma Qltb_false (a b : Q) : Qltb a b = false <-> b <= a.
Proof. unfold Qltb. rewrite negb_false_iff. apply Qle_bool_iff. Qed.

(** Turns the boolean comparisons of rationals in the context and the goal
    into propositions. *)
Ltac q_props :=
  repeat match goal with
  | H : Qle_bool _ _ = true |- _ => apply Qle_bool_iff in H
  | H : Qle_bool _ _ = false |- _ => apply Qle_bool_false in H
  | H : Qltb _ _ = true |- _ => apply Qltb_iff in H
  | H : Qltb _ _ = false |- _ => apply Qltb_false in H
  | |- Qle_bool _ _ = true => apply Qle_bool_iff
  | |- Qle_bool _ _ = false => apply Qle_bool_false
  | |- Qltb _ _ = true => apply Qltb_iff
  | |- Qltb _ _ = false => apply Qltb_false
  end.

Ltac by_cases_on_floats :=
  intros; simpl in *; try discriminate; try reflexivity;
  try (q_props; lra).

Lemma leb_refl (x : float) : notna x = true -> (x <=? x)%fl = true.
Proof. destruct x; by_cases_on_floats. Qed.

Lemma leb_trans (x y z : float) :
  (x <=? y)%fl = true -> (y <=? z)%fl = true -> (x <=? z)%fl = true.
Proof. destruct x, y, z; by_cases_on_floats. Qed.

Lemma ltb_leb (x y : float) : (x <? y)%fl = true -> (x <=? y)%fl = true.
Proof. destruct x, y; by_cases_on_floats. Qed.

Lemma not_ltb_leb (x y : float) :
  notna x = true -> notna y = true ->
  (x <? y)%fl = false -> (y <=? x)%fl = true.
Proof. destruct x, y; by_cases_on_floats. Qed.

Lemma ltb_leb_trans (x y z : float) :
  (x <? y)%fl = true -> (y <=? z)%fl = true -> (x <? z)%fl = true.
Proof. destruct x, y, z; by_cases_on_floats. Qed.

Lemma leb_ltb_trans (x y z : float) :
  (x <=? y)%fl = true -> (y <? z)%fl = true -> (x <? z)%fl = true.
Proof. destruct x, y, z; by_cases_on_floats. Qed.

Lemma ltb_notna (x y : float) :
  (x <? y)%fl = true -> notna x = true /\ notna y = true.
Proof. destruct x, y; simpl; intros; try discriminate; auto. Qed.

Lemma leb_notna (x y : float) :
  (x <=? y)%fl = true -> notna x = true /\ notna y = true.
Proof. destruct x, y; simpl; intros; try discriminate; auto. Qed.

(** ** The folds behind [Series.max] and [Series.min] *)

Section Extremum.
Variable better : float -> float -> bool.
Variable below : float -> float -> bool.
Hypothesis below_refl : forall x, notna x = true -> below x x = true.
Hypothesis below_trans : forall x y z,
  below x y = true -> below y z = true -> below x z = true.
Hypothesis better_below : forall x acc,
  better x acc = true -> below acc x = true.
Hypothesis worse_below : forall x acc,
  notna x = true -> notna acc = true ->
  better x acc = false -> below x acc = true.

Let pick := pick_skipna better.

Lemma pick_cases (acc x : float) : pick acc x = acc \/ pick acc x = x.
Proof.
  unfold pick, pick_skipna.
  destruct acc; auto; destruct (isna x); auto; destruct (better x _); auto.
Qed.

Lemma pick_notna (acc x : float) :
  notna acc = true -> notna (pick acc x) = true.
Proof.
  unfold pick, pick_skipna. intros Hacc.
  destruct acc; try discriminate;
    destruct x; simpl; try reflexivity; destruct (better _ _); reflexivity.
Qed.

Lemma pick_below_acc (acc x : float) :
  notna acc = true -> below acc (pick acc x) = true.
Proof.
  intros Hacc. unfold pick, pick_skipna.
  destruct acc; try discriminate;
    (destruct (isna x) eqn:Hx; [now apply below_refl|]);
    (destruct (better x _) eqn:Hb;
     [now apply better_below | now apply below_refl]).
Qed.

Lemma pick_below_new (acc x : float) :
  notna x = true -> below x (pick acc x) = true.
Proof.
  intros Hx. unfold pick, pick_skipna.
  assert (Hna : isna x = false)
    by (unfold notna in Hx; now destruct (isna x)).
  destruct acc; try (now apply below_refl); rewrite Hna;
    (destruct (better x _) eqn:Hb;
     [now apply below_refl | now apply worse_below]).
Qed.

Lemma fold_pick_from (l : list float) (acc : float) :
  fold_left pick l acc = acc \/ In (fold_left pick l acc) l.
Proof.
  revert acc. induction l as [|x l IH]; intros acc; simpl; [now left|].
  destruct (IH (pick acc x)) as [H|H]; [|now right; right].
  rewrite H. destruct (pick_cases acc x) as [E|E]; rewrite E; auto.
Qed.

Lemma fold_pick_below_acc (l : list float) (acc : float) :
  notna acc = true ->
  notna (fold_left pick l acc) = true
  /\ below acc (fold_left pick l acc) = true.
Proof.
  revert acc. induction l as [|x l IH]; intros acc Hacc; simpl.
  - split; [assumption | now apply below_refl].
  - destruct (IH (pick acc x)) as [Hn Hle]; [now apply pick_notna|].
    split; [assumption|].
    eapply below_trans; [apply pick_below_acc; assumption | exact Hle].
Qed.

Lemma fold_pick_below (l : list float) (acc x : float) :
  In x l -> notna x = true -> below x (fold_left pick l acc) = true.
Proof.
  revert acc. induction l as [|y l IH]; intros acc Hin Hx; [destruct Hin|].
  simpl. destruct Hin as [->|Hin]; [|now apply IH].
  assert (Hm : notna (pick acc x) = true).
  { destruct (pick_cases acc x) as [E|E]; rewrite E; [|assumption].
    unfold pick, pick_skipna in E. destruct acc; try reflexivity. now subst. }
  eapply below_trans; [now apply pick_below_new|].
  now apply fold_pick_below_acc.
Qed.

End Extremum.

(** [Series.max()] is one of the values, or NaN, and no value present is
    above it; likewise [Series.min()]. *)
Lemma nanmax_in (l : list float) : nanmax l = NaN \/ In (nanmax l) l.
Proof. apply fold_pick_from. Qed.

Lemma nanmin_in (l : list float) : nanmin l = NaN \/ In (nanmin l) l.
Proof. apply fold_pick_from. Qed.

Lemma nanmax_ge (l : list float) (x : float) :
  In x l -> notna x = true -> (x <=? nanmax l)%fl = true.
Proof.
  apply fold_pick_below with (below := fun a b => (a <=? b)%fl).
  - exact leb_refl.
  - exact leb_trans.
  - intros a acc. apply ltb_leb.
  - intros a acc Ha Hacc. now apply not_ltb_leb.
Qed.

Lemma nanmin_le (l : list float) (x : float) :
  In x l -> notna x = true -> (nanmin l <=? x)%fl = true.
Proof.
  apply fold_pick_below with (below := fun a b => (b <=? a)%fl).
  - exact leb_refl.
  - intros a b c Hab Hbc. now apply (leb_trans c b a).
  - intros a acc. apply ltb_leb.
  - intros a acc Ha Hacc. now apply not_ltb_leb.
Qed.

End FloatFacts.

(* ===================================================================== *)
(** * validate_csv_format: the range check *)
(* ===================================================================== *)

Module FormatValidation.

Import FloatFacts.

Lemma notna_isna (x : float) : notna x = true -> isna x = false.
Proof. unfold notna. now destruct (isna x). Qed.

(** The largest cell of a frame exceeds a bound exactly when some cell
    does. *)
Lemma max_exceeds (c : float) (cols : list (list float)) :
  (nanmax (map nanmax cols) >? c)%fl = any_cell (fun x => (x >? c)%fl) cols.
Proof.
  apply eq_iff_eq_true. unfold any_cell, gtb. split; intros H.
  - destruct (ltb_notna _ _ H) as [_ Hmax].
    destruct (nanmax_in (map nanmax cols)) as [E|Hin];
      [rewrite E in Hmax; discriminate|].
    apply in_map_iff in Hin. destruct Hin as (col & Ecol & Hcol).
    apply existsb_exists. exists col. split; [assumption|].
    apply existsb_exists. exists (nanmax col).
    split; [|rewrite Ecol; assumption].
    destruct (nanmax_in col) as [E|Hin]; [|assumption].
    rewrite <- Ecol, E in Hmax. discriminate.
  - apply existsb_exists in H. destruct H as (col & Hcol & H).
    apply existsb_exists in H. destruct H as (x & Hx & Hgt).
    destruct (ltb_notna _ _ Hgt) as [_ Hna].
    pose proof (nanmax_ge col x Hx Hna) as Hle.
    destruct (leb_notna _ _ Hle) as [_ Hcolmax].
    eapply ltb_leb_trans; [exact Hgt|].
    eapply leb_trans; [exact Hle|].
    apply nanmax_ge; [now apply in_map | assumption].
Qed.

Lemma min_below (c : float) (cols : list (list float)) :
  (nanmin (map nanmin cols) <? c)%fl = any_cell (fun x => (x <? c)%fl) cols.
Proof.
  apply eq_iff_eq_true. unfold any_cell. split; intros H.
  - destruct (ltb_notna _ _ H) as [Hmin _].
    destruct (nanmin_in (map nanmin cols)) as [E|Hin];
      [rewrite E in Hmin; discriminate|].
    apply in_map_iff in Hin. destruct Hin as (col & Ecol & Hcol).
    apply existsb_exists. exists col. split; [assumption|].
    apply existsb_exists. exists (nanmin col).
    split; [|rewrite Ecol; assumption].
    destruct (nanmin_in col) as [E|Hin]; [|assumption].
    rewrite <- Ecol, E in Hmin. discriminate.
  - apply existsb_exists in H. destruct H as (col & Hcol & H).
    apply existsb_exists in H. destruct H as (x & Hx & Hlt).
    destruct (ltb_notna _ _ Hlt) as [Hna _].
    pose proof (nanmin_le col x Hx Hna) as Hle.
    destruct (leb_notna _ _ Hle) as [Hcolmin _].
    eapply leb_ltb_trans; [|exact Hlt].
    eapply leb_trans; [|exact Hle].
    apply nanmin_le; [now apply in_map | assumption].
Qed.

Lemma any_cell_or (p q : float -> bool) (cols : list (list float)) :
  any_cell (fun x => p x || q x) cols = any_cell p cols || any_cell q cols.
Proof.
  unfold any_cell. induction cols as [|col cols IH]; [reflexivity|].
  simpl. rewrite IH.
  assert (E : existsb (fun x => p x || q x) col
              = existsb p col || existsb q col).
  { clear. induction col as [|x col IH]; [reflexivity|].
    simpl. rewrite IH. now destruct (p x), (q x), (existsb p col). }
  rewrite E.
  now destruct (existsb p col), (existsb q col), (existsb (existsb p) cols).
Qed.

Lemma any_cell_weaken (p q : float -> bool) (cols : list (list float)) :
  (forall x, p x = true -> q x = true) ->
  any_cell p cols = true -> any_cell q cols = true.
Proof.
  intros Hpq H. unfold any_cell in *.
  apply existsb_exists in H. destruct H as (col & Hcol & H).
  apply existsb_exists in H. destruct H as (x & Hx & Hp).
  apply existsb_exists. exists col. split; [assumption|].
  apply existsb_exists. exists x. auto.
Qed.

Lemma above_100_above_1 (x : float) :
  (x >? Fin 100)%fl = true -> (x >? Fin 1)%fl = true.
Proof. destruct x; by_cases_on_floats. Qed.

(** C10, as the code has it: once the frame has passed the checks that come
    first (30 rows, 2 columns, every column numeric), a cell above 100 makes
    [validate_csv_format] raise the prices-not-returns error; without such a
    cell, a cell outside [-1, 1] only prints the warning, and the frame is
    accepted. *)
Theorem range_check_after_earlier_checks (df : Frame cell) (w : world) :
  (30 <= nrows df)%nat -> (2 <= ncols df)%nat -> non_numeric_cols df = [] ->
  let values := map_cells to_numeric_coerce df in
  let cells := frame_columns NaN values in
  validate_csv_format df w =
    if any_cell (fun x => (x >? Fin 100)%fl) cells
    then (w, inl (ValueError LooksLikePrices))
    else if any_cell (fun x => (x >? Fin 1)%fl || (x <? Fin (-1))%fl) cells
    then (mkWorld
            (stdout w ++ [ExtremeReturns (frame_min values) (frame_max values)])
            (file w),
          inr tt)
    else (w, inr tt).
Proof.
  intros Hrows Hcols Hnum values cells.
  unfold validate_csv_format, empty.
  destruct (Nat.eqb_spec (nrows df) 0) as [E|_]; [lia|].
  destruct (Nat.eqb_spec (ncols df) 0) as [E|_]; [lia|].
  destruct (Nat.ltb_spec (nrows df) 30) as [E|_]; [lia|].
  destruct (Nat.ltb_spec (ncols df) 2) as [E|_]; [lia|].
  cbn [orb]. rewrite Hnum. fold values.
  unfold frame_max, frame_min. fold cells.
  rewrite !max_exceeds, min_below, any_cell_or.
  destruct (any_cell (fun x => (x >? Fin 100)%fl) cells) eqn:Hprices.
  - rewrite (any_cell_weaken _ _ cells above_100_above_1 Hprices).
    reflexivity.
  - destruct (any_cell (fun x => (x >? Fin 1)%fl) cells
              || any_cell (fun x => (x <? Fin (-1))%fl) cells);
      reflexivity.
Qed.

(** What [validate_csv_format] accepts has at least 30 rows and 2
    columns. *)
Lemma validate_enforces_minima (df : Frame cell) (w w' : world) :
  validate_csv_format df w = (w', inr tt) ->
  (30 <= nrows df)%nat /\ (2 <= ncols df)%nat.
Proof.
  unfold validate_csv_format.
  destruct (empty df); [discriminate|].
  destruct (Nat.ltb_spec (nrows df) 30); [discriminate|].
  destruct (Nat.ltb_spec (ncols df) 2); [discriminate|].
  intros _. now split.
Qed.

Import StandIn.

Lemma range_check_on_prices :
  (30 <= nrows prices)%nat /\ (2 <= ncols prices)%nat
  /\ non_numeric_cols prices = []
  /\ validate_csv_format prices start
     = (start, inl (ValueError LooksLikePrices)).
Proof.
  assert (Hrows : (30 <= nrows prices)%nat) by (vm_compute; lia).
  assert (Hcols : (2 <= ncols prices)%nat) by (vm_compute; lia).
  assert (Hnum : non_numeric_cols prices = []) by reflexivity.
  split; [exact Hrows|]. split; [exact Hcols|]. split; [exact Hnum|].
  exact (range_check_after_earlier_checks prices start Hrows Hcols Hnum).
Defined.

(** A frame of two rows holds cells above 100, and the error it is rejected
    with is the one for too few observations. *)
Lemma prices_on_two_days_not_reported_as_prices :
  any_cell (fun x => (x >? Fin 100)%fl)
    (frame_columns NaN (map_cells to_numeric_coerce two_days_of_prices))
  = true
  /\ validate_csv_format two_days_of_prices start
     = (start, inl (ValueError (TooFewObservations 2)))
  /\ validate_csv_format two_days_of_prices start
     <> (start, inl (ValueError LooksLikePrices)).
Proof.
  split; [reflexivity|]. split; [reflexivity|]. discriminate.
Qed.

End FormatValidation.

(* ===================================================================== *)
(** * What the computations do to the world *)
(* ===================================================================== *)

Module Effects.

Lemma world_eta (w : world) : mkWorld (stdout w) (file w) = w.
Proof. now destruct w. Qed.

Lemma prints_nothing {A} (c : Py A) (r : exn + A) :
  (forall w, c w = (w, r)) -> prints_only c.
Proof.
  intros H. exists [], r. intros w.
  now rewrite H, app_nil_r, world_eta.
Qed.

Lemma prints_ret {A} (x : A) : prints_only (ret x).
Proof. now apply prints_nothing with (r := inr x). Qed.

Lemma prints_raise {A} (e : exn) : prints_only (@raise A e).
Proof. now apply prints_nothing with (r := inl e). Qed.

Lemma prints_call {A} (r : exn + A) : prints_only (call r).
Proof. now apply prints_nothing with (r := r). Qed.

Lemma prints_print (l : line) : prints_only (print l).
Proof. now exists [l], (inr tt). Qed.

Lemma prints_bind {A B} (c : Py A) (k : A -> Py B) :
  prints_only c -> (forall x, prints_only (k x)) -> prints_only (bind c k).
Proof.
  intros (out & r & Hc) Hk. destruct r as [e|x].
  - exists out, (inl e). intros w. unfold bind. now rewrite Hc.
  - destruct (Hk x) as (out' & r' & Hkx).
    exists (out ++ out'), r'. intros w. unfold bind.
    rewrite Hc, Hkx. simpl. now rewrite app_assoc.
Qed.

Lemma prints_try {A} (c : Py A) (h : exn -> Py A) :
  prints_only c -> (forall e, prints_only (h e)) ->
  prints_only (try_except c h).
Proof.
  intros (out & r & Hc) Hh. destruct r as [e|x].
  - destruct (Hh e) as (out' & r' & Hhe).
    exists (out ++ out'), r'. intros w. unfold try_except.
    rewrite Hc, Hhe. simpl. now rewrite app_assoc.
  - exists out, (inr x). intros w. unfold try_except. now rewrite Hc.
Qed.

(** Splits a computation along its binds, handlers and tests. *)
Ltac prints :=
  repeat first
    [ apply prints_ret | apply prints_raise | apply prints_call
    | apply prints_print
    | apply prints_bind; [|intros]
    | apply prints_try; [|intros]
    | match goal with
      | |- prints_only (if ?b then _ else _) => destruct b
      | |- prints_only (match ?x with _ => _ end) => destruct x
      end ].

Lemma prints_validate (df : Frame cell) :
  prints_only (validate_csv_format df).
Proof. unfold validate_csv_format. prints. Qed.

Lemma prints_clean_data (df : Frame cell) : prints_only (clean_data df).
Proof. unfold clean_data, when_. prints. Qed.

Section WithLibraries.
Context {L : Libraries}.

Lemma prints_apply_risk_constraint mu S risk_level max_weight locals :
  prints_only (apply_risk_constraint mu S risk_level max_weight locals).
Proof. unfold apply_risk_constraint. prints. Qed.

Lemma prints_solve mu S risk_level max_weight :
  prints_only (solve mu S risk_level max_weight).
Proof. unfold solve. prints. Qed.

Lemma prints_optimize (df : Frame float) (risk_level max_weight : float) :
  prints_only (optimize_portfolio df risk_level max_weight).
Proof.
  unfold optimize_portfolio, estimate, check_covariance. prints.
Qed.

End WithLibraries.

(** ** Pre- and postconditions *)

Lemma triple_ret {A} (P : world -> Prop) (x : A) Q R :
  (forall w, P w -> Q x w) -> triple P (ret x) Q R.
Proof. intros H w Hw. now apply H. Qed.

Lemma triple_raise {A} (P : world -> Prop) (e : exn)
    (Q : A -> world -> Prop) R :
  (forall w, P w -> R e w) -> triple P (raise e) Q R.
Proof. intros H w Hw. now apply H. Qed.

Lemma triple_bind {A B} P (c : Py A) (k : A -> Py B) Q' Q R :
  triple P c Q' R -> (forall x, triple (Q' x) (k x) Q R) ->
  triple P (bind c k) Q R.
Proof.
  intros Hc Hk w Hw. unfold bind. specialize (Hc w Hw).
  destruct (c w) as [w' [e|x]]; [assumption|]. now apply Hk.
Qed.

Lemma triple_try {A} P (c : Py A) (h : exn -> Py A) Q R' R :
  triple P c Q R' -> (forall e, triple (R' e) (h e) Q R) ->
  triple P (try_except c h) Q R.
Proof.
  intros Hc Hh w Hw. unfold try_except. specialize (Hc w Hw).
  destruct (c w) as [w' [e|x]]; [now apply Hh | assumption].
Qed.

(** A computation that only prints keeps what is known of the upload. *)
Lemma triple_prints {A} (c : Py A) (I : UploadFile -> Prop) :
  prints_only c ->
  triple (fun w => I (file w)) c
         (fun _ w => I (file w)) (fun _ w => I (file w)).
Proof.
  intros (out & r & Hc) w Hw. rewrite Hc. now destruct r.
Qed.

Lemma triple_weaken {A} (P P' : world -> Prop) (c : Py A)
    (Q Q' : A -> world -> Prop) (R R' : exn -> world -> Prop) :
  triple P' c Q' R' ->
  (forall w, P w -> P' w) ->
  (forall x w, Q' x w -> Q x w) ->
  (forall e w, R' e w -> R e w) ->
  triple P c Q R.
Proof.
  intros Hc HP HQ HR w Hw. specialize (Hc w (HP w Hw)).
  destruct (c w) as [w' [e|x]]; auto.
Qed.

End Effects.

(* ===================================================================== *)
(** * The endpoints and the upload *)
(* ===================================================================== *)

Module Requests.

Import Effects.

Lemma triple_any {A} (P : world -> Prop) (c : Py A) :
  triple P c (fun _ _ => True) (fun _ _ => True).
Proof. intros w _. now destruct (c w) as [w' [e|x]]. Qed.

Lemma read_consumes (P : world -> Prop) :
  triple P file_read (fun _ w => consumed w) (fun _ _ => True).
Proof. intros w _. reflexivity. Qed.

Lemma read_after_end (w : world) : consumed w -> file_read w = (w, inr []).
Proof.
  unfold consumed, file_read.
  destruct w as [out [name bytes pos]]. simpl. intros ->.
  now rewrite skipn_all.
Qed.

(** A computation that only prints keeps the upload consumed. *)
Lemma keeps_consumed {A} (c : Py A) :
  prints_only c ->
  triple consumed c (fun _ w => consumed w) (fun _ _ => True).
Proof.
  intros Hc.
  apply triple_weaken with
    (P' := consumed) (Q' := fun _ w => consumed w)
    (R' := fun _ w => consumed w); auto.
  exact (triple_prints (fun f => position f = List.length (content f)) Hc).
Qed.

Section WithLibraries.
Context {L : Libraries}.
Variables risk_level max_weight : float.

Lemma prints_decode (contents : list Byte.byte) :
  prints_only (decode contents).
Proof. unfold decode. prints. Qed.

(** Whenever steps 1 to 4 hand over a frame, the upload is at its end. *)
Lemma receive_consumes :
  triple (fun _ => True) (receive risk_level max_weight)
         (fun _ w => consumed w) (fun _ _ => True).
Proof.
  unfold receive.
  do 4 (apply triple_bind with (Q' := fun _ _ => True);
        [apply triple_any | intros ?]).
  apply triple_bind with (Q' := fun _ w => consumed w).
  - apply triple_try with (R' := fun _ _ => True).
    + apply triple_bind with (Q' := fun _ w => consumed w);
        [apply read_consumes | intros contents].
      apply keeps_consumed.
      apply prints_bind; [apply prints_decode | intros; apply prints_call].
    + intros e. destruct e; now apply triple_raise.
  - intros df. apply keeps_consumed. unfold try_except_ValueError.
    apply prints_bind; [|intros; apply prints_ret].
    apply prints_try; [apply prints_validate | intros e; prints].
Qed.

Lemma prints_steps_5_to_7 (df : Frame cell) :
  prints_only
    (df_clean <- try_except_ValueError (clean_data df)
       (fun e => raise (HTTPException 422 (CleaningFailed e))) ;;
     result <- try_except_ValueError
       (optimize_portfolio df_clean risk_level max_weight)
       (fun e => raise (HTTPException 422 (OptimizationRejected e))) ;;
     ret (optimal_portfolio result)).
Proof.
  unfold try_except_ValueError.
  apply prints_bind;
    [apply prints_try; [apply prints_clean_data | intros e; prints]|].
  intros df_clean.
  apply prints_bind;
    [apply prints_try; [apply prints_optimize | intros e; prints]|].
  intros result. apply prints_ret.
Qed.

(** The main endpoint returns with the upload consumed, and raises nothing
    but [HTTPException]. *)
Lemma endpoint_consumes :
  triple (fun _ => True) (optimize_portfolio_endpoint risk_level max_weight)
         (fun _ w => consumed w) (fun e _ => is_HTTPException e = true).
Proof.
  unfold optimize_portfolio_endpoint.
  apply triple_try with (R' := fun _ _ => True).
  - apply triple_bind with (Q' := fun _ w => consumed w);
      [apply receive_consumes | intros df].
    apply keeps_consumed, prints_steps_5_to_7.
  - intros e. destruct (is_HTTPException e) eqn:E.
    + now apply triple_raise.
    + now apply triple_raise.
Qed.

(** C9: the detailed endpoint never returns a result.  When the main
    endpoint it calls first succeeds, the upload is at its end, the second
    read returns no bytes, and the request ends in the 500 response that
    wraps the parser's complaint about an empty file; when the main
    endpoint raises, its [HTTPException] is raised again. *)
Theorem detailed_endpoint_never_returns_metrics (w : world) :
  match optimize_portfolio_endpoint risk_level max_weight w with
  | (w1, inr _) =>
      file_read w1 = (w1, inr [])
      /\ optimize_portfolio_detailed_endpoint risk_level max_weight w
         = (w1, inl (HTTPException 500 (InternalError EmptyDataError)))
  | (w1, inl e) =>
      is_HTTPException e = true
      /\ optimize_portfolio_detailed_endpoint risk_level max_weight w
         = (w1, inl e)
  end.
Proof.
  pose proof endpoint_consumes as Hmain. specialize (Hmain w I).
  unfold optimize_portfolio_detailed_endpoint, try_except, bind.
  destruct (optimize_portfolio_endpoint risk_level max_weight w)
    as [w1 [e|portfolio]].
  - split; [assumption|]. now rewrite Hmain.
  - pose proof (read_after_end Hmain) as Hread.
    split; [assumption|]. rewrite Hread.
    unfold decode. rewrite decode_utf8_empty.
    unfold ret, call. now rewrite read_csv_empty.
Qed.

(** The frame that steps 1 to 4 accepted is checked again once it is
    cleaned: with fewer than 30 rows or fewer than 2 columns left,
    [clean_data] raises one of its two too-little-data errors and the
    request ends in a 422 response carrying it; [optimize_portfolio] is not
    reached. *)
Theorem short_frame_rejected_after_cleaning
    (w w1 : world) (df : Frame cell) :
  receive risk_level max_weight w = (w1, inr df) ->
  (nrows (snd (cleaned df)) < 30 \/ ncols (snd (cleaned df)) < 2)%nat ->
  exists w' m,
    insufficient_data m = true
    /\ clean_data df w1 = (w', inl (ValueError m))
    /\ optimize_portfolio_endpoint risk_level max_weight w
       = (w', inl (HTTPException 422 (CleaningFailed (ValueError m)))).
Proof.
  intros Hreceive Hshort.
  assert (Hclean : exists w' m,
             insufficient_data m = true
             /\ clean_data df w1 = (w', inl (ValueError m))).
  { unfold clean_data. destruct (cleaned df) as [dropped df'].
    simpl in Hshort. unfold bind.
    destruct (when_ _ _ w1) as [wa [e|[]]] eqn:Ewhen.
    { unfold when_ in Ewhen.
      destruct (negb _); [unfold print in Ewhen | unfold ret in Ewhen];
        discriminate. }
    unfold print at 1.
    destruct (Nat.ltb_spec (nrows df') 30) as [Hr|Hr].
    - eexists _, (TooFewObservationsLeft (nrows df')). now split.
    - destruct (Nat.ltb_spec (ncols df') 2) as [Hc|Hc]; [|lia].
      eexists _, (TooFewAssetsLeft (ncols df')). now split. }
  destruct Hclean as (w' & m & Hm & Hclean).
  exists w', m. split; [assumption|]. split; [assumption|].
  unfold optimize_portfolio_endpoint, try_except_ValueError, try_except, bind.
  rewrite Hreceive, Hclean. reflexivity.
Qed.

End WithLibraries.

(** What [clean_data] returns has the two minima, so [optimize_portfolio]
    is only ever handed such a frame by the endpoints. *)
Lemma clean_data_guarantees_minima (df : Frame cell) (w w' : world)
    (df' : Frame float) :
  clean_data df w = (w', inr df') ->
  (30 <= nrows df')%nat /\ (2 <= ncols df')%nat.
Proof.
  unfold clean_data. destruct (cleaned df) as [dropped cleaned_df].
  unfold bind. destruct (when_ _ _ w) as [wa [e|[]]]; [discriminate|].
  unfold print at 1.
  destruct (Nat.ltb_spec (nrows cleaned_df) 30) as [Hr|Hr]; [discriminate|].
  destruct (Nat.ltb_spec (ncols cleaned_df) 2) as [Hc|Hc]; [discriminate|].
  unfold ret. intros E. inversion E. subst. now split.
Qed.

Import StandIn.

Lemma repeated_rows_rejected_after_cleaning :
  let L := libraries repeated in
  exists w1,
    receive (Fin 0.5) (Fin 0.5) start = (w1, inr repeated)
    /\ (nrows (snd (cleaned repeated)) < 30
        \/ ncols (snd (cleaned repeated)) < 2)%nat
    /\ exists w' m,
         insufficient_data m = true
         /\ clean_data repeated w1 = (w', inl (ValueError m))
         /\ optimize_portfolio_endpoint (Fin 0.5) (Fin 0.5) start
            = (w', inl (HTTPException 422 (CleaningFailed (ValueError m)))).
Proof.
  intros L.
  assert (Hreceive : receive (Fin 0.5) (Fin 0.5) start
                     = (fst (receive (Fin 0.5) (Fin 0.5) start), inr repeated))
    by (vm_compute; reflexivity).
  assert (Hshort : (nrows (snd (cleaned repeated)) < 30
                    \/ ncols (snd (cleaned repeated)) < 2)%nat)
    by (left; vm_compute; lia).
  exists (fst (receive (Fin 0.5) (Fin 0.5) start)).
  split; [exact Hreceive|]. split; [exact Hshort|].
  exact (short_frame_rejected_after_cleaning
           (Fin 0.5) (Fin 0.5) start Hreceive Hshort).
Defined.

(** The detailed endpoint on an upload the main endpoint accepts. *)
Example detailed_endpoint_on_sample :
  let L := libraries sample in
  (exists w1 portfolio,
      optimize_portfolio_endpoint (Fin 0.5) (Fin 0.5) start
      = (w1, inr portfolio))
  /\ snd (optimize_portfolio_detailed_endpoint (Fin 0.5) (Fin 0.5) start)
     = inl (HTTPException 500 (InternalError EmptyDataError)).
Proof.
  intros L. split; [|vm_compute; reflexivity].
  eexists _, _. vm_compute. reflexivity.
Qed.

End Requests.

(* ===================================================================== *)
(** * optimize_portfolio: the two solves *)
(* ===================================================================== *)

Module Orchestration.

Section WithLibraries.
Context {L : Libraries}.
Variable df : Frame float.
Variables risk_level max_weight : float.
Variable w : world.

(** What the first solve leaves: statistics that passed both checks, the
    frontier object after [max_sharpe], its cleaned weights and its
    performance. *)
Variable mu : Series.
Variable S : list (list float).
Variables ef ef_solved : EF.
Variable cleaned_weights : weights.
Variable p : performance.
Hypothesis estimated : estimate df w = (w, inr (mu, S)).
Hypothesis covariance_checked : check_covariance S w = (w, inr tt).
Hypothesis constructed : EfficientFrontier mu S (Fin 0, max_weight) = inr ef.
Hypothesis solved : max_sharpe ef = inr ef_solved.
Hypothesis cleaned_ok : clean_weights ef_solved = inr cleaned_weights.
Hypothesis measured : portfolio_performance ef_solved = inr p.

Let volatility : float := snd (fst p).

Lemma run_reaches_risk_check :
  optimize_portfolio df risk_level max_weight w =
    try_except
      (final <-
         (if (volatility >? risk_level)%fl then
            print (VolatilityExceeds volatility risk_level) ;;
            apply_risk_constraint mu S risk_level max_weight
              (cleaned_weights, p)
          else ret (cleaned_weights, p)) ;;
       ret (prepare_result (fst final) (snd final)))
      (fun e => raise (ValueError (OptimizationFailed e))) w.
Proof.
  unfold optimize_portfolio, bind at 1 2. rewrite estimated.
  cbn [fst snd]. rewrite covariance_checked.
  unfold try_except, solve, bind, call.
  rewrite constructed, solved, cleaned_ok, measured.
  subst volatility. now destruct p as [[r v] s].
Qed.

(** C1: when the volatility of the max-Sharpe portfolio exceeds the risk
    level and the risk-constrained solve raises, whatever the exception,
    [optimize_portfolio] returns the max-Sharpe weights and the metrics
    computed from them; the exception is printed and goes no further. *)
Theorem failed_second_solve_keeps_max_sharpe (e : exn) :
  (volatility >? risk_level)%fl = true ->
  efficient_risk ef risk_level = inl e ->
  optimize_portfolio df risk_level max_weight w =
    (mkWorld
       (stdout w ++ [VolatilityExceeds volatility risk_level;
                     RiskConstraintFailed e;
                     UsingMaxSharpe])
       (file w),
     inr (prepare_result cleaned_weights p)).
Proof.
  intros Hexceeds Hfails. rewrite run_reaches_risk_check, Hexceeds.
  unfold try_except, bind, apply_risk_constraint, try_except, bind, call.
  rewrite constructed, Hfails. unfold print, ret. cbn [stdout file fst snd].
  now rewrite <- !app_assoc.
Qed.

(** X11: the second solve assigns [cleaned_weights] before it asks for the
    performance: if that last call raises, the result carries the weights
    of the second solve with the metrics of the first. *)
Lemma failed_second_performance_mixes_results
    (ef_risk : EF) (constrained : weights) (e : exn) :
  (volatility >? risk_level)%fl = true ->
  efficient_risk ef risk_level = inr ef_risk ->
  clean_weights ef_risk = inr constrained ->
  portfolio_performance ef_risk = inl e ->
  optimize_portfolio df risk_level max_weight w =
    (mkWorld
       (stdout w ++ [VolatilityExceeds volatility risk_level;
                     RiskConstraintFailed e;
                     UsingMaxSharpe])
       (file w),
     inr (prepare_result constrained p)).
Proof.
  intros Hexceeds Hrisk Hclean Hperf.
  rewrite run_reaches_risk_check, Hexceeds.
  unfold try_except, bind, apply_risk_constraint, try_except, bind, call.
  rewrite constructed, Hrisk, Hclean, Hperf.
  unfold print, ret. cbn [stdout file fst snd].
  now rewrite <- !app_assoc.
Qed.

End WithLibraries.

(** C5: when the volatility of the max-Sharpe portfolio does not exceed
    the risk level, [optimize_portfolio] returns the max-Sharpe weights and
    metrics and prints nothing, and it does so whatever the solver of the
    risk-constrained problem would answer: that solver is not consulted. *)
Theorem within_risk_level_max_sharpe_is_final {L : Libraries}
    (df : Frame float) (risk_level max_weight : float) (w : world)
    (mu : Series) (S : list (list float)) (ef ef_solved : EF)
    (cleaned_weights : weights) (p : performance) :
  estimate df w = (w, inr (mu, S)) ->
  check_covariance S w = (w, inr tt) ->
  EfficientFrontier mu S (Fin 0, max_weight) = inr ef ->
  max_sharpe ef = inr ef_solved ->
  clean_weights ef_solved = inr cleaned_weights ->
  portfolio_performance ef_solved = inr p ->
  (snd (fst p) >? risk_level)%fl = false ->
  optimize_portfolio df risk_level max_weight w
  = (w, inr (prepare_result cleaned_weights p))
  /\ forall solver,
       @optimize_portfolio (with_efficient_risk L solver)
         df risk_level max_weight w
       = (w, inr (prepare_result cleaned_weights p)).
Proof.
  intros Hest Hcov Hnew Hsolved Hclean Hperf Hwithin.
  assert (Hany : forall L' : Libraries,
             @estimate df w = (w, inr (mu, S)) ->
             forall (ef' ef'' : @EF L'),
             @check_covariance L' S w = (w, inr tt) ->
             @EfficientFrontier L' mu S (Fin 0, max_weight) = inr ef' ->
             @max_sharpe L' ef' = inr ef'' ->
             @clean_weights L' ef'' = inr cleaned_weights ->
             @portfolio_performance L' ef'' = inr p ->
             @optimize_portfolio L' df risk_level max_weight w
             = (w, inr (prepare_result cleaned_weights p))).
  { intros L' He ef' ef'' Hc Hn Hs Hcl Hp.
    rewrite (@run_reaches_risk_check L' df risk_level max_weight w mu S
               ef' ef'' cleaned_weights p He Hc Hn Hs Hcl Hp).
    now rewrite Hwithin. }
  split.
  - now apply Hany with (ef' := ef) (ef'' := ef_solved).
  - intros solver.
    now apply (Hany (with_efficient_risk L solver) Hest ef ef_solved).
Qed.

(** C4, as the code has it: with statistics that passed their checks, the
    run ends in the covariance error exactly when some eigenvalue returned
    by [eigvals] is at most 0.  The bound is 0 itself. *)
Theorem covariance_error_iff_eigenvalue_not_positive {L : Libraries}
    (df : Frame float) (risk_level max_weight : float) (w : world)
    (mu : Series) (S : list (list float)) (eigenvalues : list float) :
  estimate df w = (w, inr (mu, S)) ->
  eigvals S = inr eigenvalues ->
  optimize_portfolio df risk_level max_weight w
  = (w, inl (ValueError CovarianceNotPositive))
  <-> exists ev, In ev eigenvalues /\ (ev <=? Fin 0)%fl = true.
Proof.
  intros Hest Heig. unfold optimize_portfolio, bind at 1 2.
  rewrite Hest. cbn [fst snd].
  unfold check_covariance, bind, call. rewrite Heig.
  rewrite <- existsb_exists.
  destruct (existsb (fun ev => (ev <=? Fin 0)%fl) eigenvalues).
  - now split.
  - unfold ret, try_except.
    destruct (solve mu S risk_level max_weight w) as [w' [e|r]];
      split; discriminate.
Qed.

(** The weights [optimize_portfolio] returns are, entry for entry, what
    the library's [clean_weights] returned for the frontier object of the
    first or of the second solve; the module itself rounds no weight and
    rescales none, and reports their sum, rounded to 6 digits, as
    [total_weight]. *)
Theorem returned_weights_are_clean_weights_output {L : Libraries}
    (df : Frame float) (risk_level max_weight : float) (w w' : world)
    (res : result) :
  optimize_portfolio df risk_level max_weight w = (w', inr res) ->
  exists ef ef_solved,
    EfficientFrontier (annual_mean df) (annual_cov df) (Fin 0, max_weight)
    = inr ef
    /\ (max_sharpe ef = inr ef_solved
        \/ efficient_risk ef risk_level = inr ef_solved)
    /\ clean_weights ef_solved = inr (optimal_portfolio res)
    /\ total_weight (portfolio_metrics res)
       = round6 (Float.sum (map snd (optimal_portfolio res))).
Proof.
  unfold optimize_portfolio, estimate, check_covariance, bind at 1 2 3.
  destruct (existsb isna _); [discriminate|].
  destruct (existsb (existsb isna) _); [discriminate|].
  unfold ret at 1. cbn [fst snd]. unfold call at 1.
  destruct (eigvals _) as [e|evs]; [discriminate|].
  destruct (existsb _ evs); [discriminate|].
  unfold ret at 1, try_except at 1, solve, bind, call.
  destruct (EfficientFrontier _ _ _) as [e|ef] eqn:Hnew; [discriminate|].
  destruct (max_sharpe ef) as [e|ef1] eqn:Hsolved; [discriminate|].
  destruct (clean_weights ef1) as [e|cw] eqn:Hclean; [discriminate|].
  destruct (portfolio_performance ef1) as [e|[[r v] s]]; [discriminate|].
  destruct (v >? risk_level)%fl.
  - unfold print at 1, apply_risk_constraint, try_except, bind, call.
    rewrite Hnew.
    destruct (efficient_risk ef risk_level) as [e|ef2] eqn:Hrisk.
    + unfold print, ret. cbn [fst snd]. intros E. inversion E. subst.
      exists ef, ef1. auto.
    + destruct (clean_weights ef2) as [e|cw2] eqn:Hclean2.
      * unfold print, ret. cbn [fst snd]. intros E. inversion E. subst.
        exists ef, ef1. auto.
      * destruct (portfolio_performance ef2) as [e|[[r2 v2] s2]];
          unfold print, ret; cbn [fst snd]; intros E; inversion E; subst;
          exists ef, ef2; auto.
  - unfold ret. cbn [fst snd]. intros E. inversion E. subst.
    exists ef, ef1. auto.
Qed.

(** ** Runs on the stand-in libraries *)

Import StandIn.

Ltac run := vm_compute; reflexivity.

Lemma sample_at_risk_level_4_percent_falls_back :
  let L := libraries sample in
  let df := snd (cleaned sample) in
  let mu := annual_mean df in
  let S := annual_cov df in
  let ef := mkFrontier mu S (Fin 0, Fin 0.5) None in
  let raw := equal_weights ef in
  let cw := clean (map fst mu) raw in
  let p := (dot raw (map snd mu), volatility S raw,
            (dot raw (map snd mu) / volatility S raw)%fl) in
  let e := LibraryError false "infeasible" in
  (snd (fst p) >? Fin 0.04)%fl = true
  /\ efficient_risk ef (Fin 0.04) = inl e
  /\ optimize_portfolio df (Fin 0.04) (Fin 0.5) start
     = (mkWorld
          (stdout start ++ [VolatilityExceeds (snd (fst p)) (Fin 0.04);
                            RiskConstraintFailed e;
                            UsingMaxSharpe])
          (file start),
        inr (prepare_result cw p)).
Proof.
  intros L df mu S ef raw cw p e.
  assert (H1 : estimate df start = (start, inr (mu, S))) by run.
  assert (H2 : check_covariance S start = (start, inr tt)) by run.
  assert (H3 : EfficientFrontier mu S (Fin 0, Fin 0.5) = inr ef) by run.
  assert (H4 : max_sharpe ef = inr (with_weights ef raw)) by run.
  assert (H5 : clean_weights (with_weights ef raw) = inr cw) by run.
  assert (H6 : portfolio_performance (with_weights ef raw) = inr p) by run.
  assert (H7 : (snd (fst p) >? Fin 0.04)%fl = true) by run.
  assert (H8 : efficient_risk ef (Fin 0.04) = inl e) by run.
  split; [exact H7|]. split; [exact H8|].
  exact (failed_second_solve_keeps_max_sharpe
           df (Fin 0.04) (Fin 0.5) H1 H2 H3 H4 H5 H6 H7 H8).
Defined.

Lemma sample_at_risk_level_50_percent_keeps_max_sharpe :
  let L := libraries sample in
  let df := snd (cleaned sample) in
  let mu := annual_mean df in
  let S := annual_cov df in
  let ef := mkFrontier mu S (Fin 0, Fin 0.5) None in
  let raw := equal_weights ef in
  let cw := clean (map fst mu) raw in
  let p := (dot raw (map snd mu), volatility S raw,
            (dot raw (map snd mu) / volatility S raw)%fl) in
  (snd (fst p) >? Fin 0.5)%fl = false
  /\ optimize_portfolio df (Fin 0.5) (Fin 0.5) start
     = (start, inr (prepare_result cw p))
  /\ forall solver,
       @optimize_portfolio (with_efficient_risk L solver)
         df (Fin 0.5) (Fin 0.5) start
       = (start, inr (prepare_result cw p)).
Proof.
  intros L df mu S ef raw cw p.
  assert (H1 : estimate df start = (start, inr (mu, S))) by run.
  assert (H2 : check_covariance S start = (start, inr tt)) by run.
  assert (H3 : EfficientFrontier mu S (Fin 0, Fin 0.5) = inr ef) by run.
  assert (H4 : max_sharpe ef = inr (with_weights ef raw)) by run.
  assert (H5 : clean_weights (with_weights ef raw) = inr cw) by run.
  assert (H6 : portfolio_performance (with_weights ef raw) = inr p) by run.
  assert (H7 : (snd (fst p) >? Fin 0.5)%fl = false) by run.
  split; [exact H7|].
  exact (within_risk_level_max_sharpe_is_final
           df (Fin 0.5) (Fin 0.5) H1 H2 H3 H4 H5 H6 H7).
Defined.

Lemma sample_covariance_is_accepted :
  let L := libraries sample in
  let df := snd (cleaned sample) in
  let S := annual_cov df in
  eigvals S = inr (diagonal S)
  /\ (optimize_portfolio df (Fin 0.5) (Fin 0.5) start
      = (start, inl (ValueError CovarianceNotPositive))
      <-> exists ev, In ev (diagonal S) /\ (ev <=? Fin 0)%fl = true).
Proof.
  intros L df S.
  assert (H1 : estimate df start = (start, inr (annual_mean df, S))) by run.
  assert (H2 : eigvals S = inr (diagonal S)) by reflexivity.
  split; [exact H2|].
  exact (covariance_error_iff_eigenvalue_not_positive
           df (Fin 0.5) (Fin 0.5) H1 H2).
Defined.

(** The covariance of [quiet] is diagonal, so its eigenvalues are its
    diagonal entries.  The first one is positive and below the floor of
    1e-10 the design proposes, and the run goes on to a result. *)
Lemma eigenvalue_below_epsilon_is_accepted :
  let L := libraries quiet in
  let df := snd (cleaned quiet) in
  annual_cov df
  = [[Fin 1.953e-14; Fin 0; Fin 0];
     [Fin 0; Fin (18228 # 9765625); Fin 0];
     [Fin 0; Fin 0; Fin (5220369 # 4882812500)]]
  /\ eigvals (annual_cov df)
     = inr [Fin 1.953e-14; Fin (18228 # 9765625);
            Fin (5220369 # 4882812500)]
  /\ (Fin 0 <? Fin 1.953e-14)%fl = true
  /\ (Fin 1.953e-14 <=? Fin epsilon)%fl = true
  /\ (exists res, optimize_portfolio df (Fin 0.5) (Fin 0.5) start
                  = (start, inr res))
  /\ optimize_portfolio df (Fin 0.5) (Fin 0.5) start
     <> (start, inl (ValueError CovarianceNotPositive)).
Proof.
  intros L df.
  split; [run|]. split; [run|]. split; [run|]. split; [run|].
  split; [eexists; run|].
  vm_compute. discriminate.
Qed.

Lemma sample_weights_come_from_clean_weights :
  let L := libraries sample in
  let df := snd (cleaned sample) in
  let mu := annual_mean df in
  let S := annual_cov df in
  let raw := equal_weights (mkFrontier mu S (Fin 0, Fin 0.5) None) in
  let res :=
    prepare_result (clean (map fst mu) raw)
      (dot raw (map snd mu), volatility S raw,
       (dot raw (map snd mu) / volatility S raw)%fl) in
  optimize_portfolio df (Fin 0.5) (Fin 0.5) start = (start, inr res)
  /\ exists ef ef_solved,
       EfficientFrontier mu S (Fin 0, Fin 0.5) = inr ef
       /\ (max_sharpe ef = inr ef_solved
           \/ efficient_risk ef (Fin 0.5) = inr ef_solved)
       /\ clean_weights ef_solved = inr (optimal_portfolio res)
       /\ total_weight (portfolio_metrics res)
          = round6 (Float.sum (map snd (optimal_portfolio res))).
Proof.
  intros L df mu S raw res.
  assert (H : optimize_portfolio df (Fin 0.5) (Fin 0.5) start
              = (start, inr res)) by run.
  split; [exact H|].
  exact (returned_weights_are_clean_weights_output
           df (Fin 0.5) (Fin 0.5) start H).
Defined.

End Orchestration.

(* ===================================================================== *)
(** * The annualised statistics *)
(* ===================================================================== *)

Module Statistics.

Local Open Scope Q_scope.

(** [x] is the finite value [q]. *)
Notation "x ~ q" := (Float.eqv x (Fin q)) (at level 70, no associativity).

Lemma finite_inv (x : float) (q : Q) :
  x ~ q -> exists a, x = Fin a /\ a == q.
Proof. destruct x; simpl; try contradiction. intros H. now exists q0. Qed.

Lemma add_finite (x y : float) (a b : Q) :
  x ~ a -> y ~ b -> (x + y)%fl ~ a + b.
Proof.
  intros Hx Hy.
  destruct (finite_inv _ _ Hx) as (a' & -> & Ea).
  destruct (finite_inv _ _ Hy) as (b' & -> & Eb).
  change (Qred (a' + b') == a + b). now rewrite Qred_correct, Ea, Eb.
Qed.

Lemma sub_finite (x y : float) (a b : Q) :
  x ~ a -> y ~ b -> (x - y)%fl ~ a - b.
Proof.
  intros Hx Hy.
  destruct (finite_inv _ _ Hx) as (a' & -> & Ea).
  destruct (finite_inv _ _ Hy) as (b' & -> & Eb).
  change (Qred (a' - b') == a - b). now rewrite Qred_correct, Ea, Eb.
Qed.

Lemma mul_finite (x y : float) (a b : Q) :
  x ~ a -> y ~ b -> (x * y)%fl ~ a * b.
Proof.
  intros Hx Hy.
  destruct (finite_inv _ _ Hx) as (a' & -> & Ea).
  destruct (finite_inv _ _ Hy) as (b' & -> & Eb).
  change (Qred (a' * b') == a * b). now rewrite Qred_correct, Ea, Eb.
Qed.

Lemma div_finite (x y : float) (a b : Q) :
  x ~ a -> y ~ b -> ~ b == 0 -> (x / y)%fl ~ a / b.
Proof.
  intros Hx Hy Hb.
  destruct (finite_inv _ _ Hx) as (a' & -> & Ea).
  destruct (finite_inv _ _ Hy) as (b' & -> & Eb).
  unfold Float.div. destruct (Qeq_bool b' 0) eqn:E.
  - apply Qeq_bool_eq in E. rewrite Eb in E. contradiction.
  - change (Qred (a' / b') == a / b). now rewrite Qred_correct, Ea, Eb.
Qed.

Lemma finite_refl (q : Q) : Fin q ~ q.
Proof. change (q == q). reflexivity. Qed.

Lemma finite_weaken (x : float) (a b : Q) : x ~ a -> a == b -> x ~ b.
Proof.
  intros Hx E. destruct (finite_inv _ _ Hx) as (a' & -> & Ea).
  change (a' == b). now rewrite Ea.
Qed.

Lemma fold_add_finite (fs : list float) (qs : list Q) (acc : float) (a : Q) :
  Forall2 (fun f q => f ~ q) fs qs -> acc ~ a ->
  fold_left Float.add fs acc ~ a + Qsum qs.
Proof.
  intros H. revert acc a.
  induction H as [|f q fs qs Hf _ IH]; intros acc a Hacc; cbn [fold_left].
  - eapply finite_weaken; [exact Hacc|]. unfold Qsum. simpl. lra.
  - eapply finite_weaken; [apply IH, add_finite; eassumption|].
    unfold Qsum. simpl. lra.
Qed.

(** Python's running sum is the sum. *)
Lemma sum_finite (fs : list float) (qs : list Q) :
  Forall2 (fun f q => f ~ q) fs qs -> Float.sum fs ~ Qsum qs.
Proof.
  intros H. unfold Float.sum.
  eapply finite_weaken; [apply fold_add_finite; [exact H|apply finite_refl]|].
  lra.
Qed.

Lemma Forall2_map {A B C} (R : B -> C -> Prop) (f : A -> B) (g : A -> C)
    (l : list A) :
  (forall x, In x l -> R (f x) (g x)) -> Forall2 R (map f l) (map g l).
Proof.
  induction l as [|x l IH]; intros H; simpl; constructor.
  - apply H. now left.
  - apply IH. intros y Hy. apply H. now right.
Qed.

Lemma present_all (xs : list Q) : filter notna (map Fin xs) = map Fin xs.
Proof. induction xs as [|x xs IH]; simpl; [|rewrite IH]; reflexivity. Qed.

Lemma count_nonzero (xs : list Q) : xs <> [] -> ~ count xs == 0.
Proof.
  intros Hne. unfold count. destruct xs as [|x xs]; [contradiction|].
  cbn [List.length]. rewrite Nat2Z.inj_succ.
  unfold Qeq, inject_Z. simpl. lia.
Qed.

Lemma count_minus_one_nonzero (xs : list Q) :
  (2 <= List.length xs)%nat -> ~ count xs - 1 == 0.
Proof.
  intros Hlen. unfold count, Qeq, Qminus, Qplus, Qopp, inject_Z. simpl. lia.
Qed.

(** [Series.mean()] on a column without missing values. *)
Lemma mean_finite (xs : list Q) :
  xs <> [] -> mean (map Fin xs) ~ daily_mean xs.
Proof.
  intros Hne. unfold mean, daily_mean. rewrite present_all.
  apply div_finite.
  - apply sum_finite. rewrite <- (map_id xs) at 2.
    apply Forall2_map. intros x _. apply finite_refl.
  - unfold of_nat, count. rewrite length_map. apply finite_refl.
  - now apply count_nonzero.
Qed.

Lemma pairs_all (xs ys : list Q) :
  filter (fun p => notna (fst p) && notna (snd p))
         (combine (map Fin xs) (map Fin ys))
  = map (fun p => (Fin (fst p), Fin (snd p))) (combine xs ys).
Proof.
  revert ys. induction xs as [|x xs IH]; intros [|y ys]; simpl;
    try reflexivity.
  now rewrite IH.
Qed.

Lemma map_fst_combine {A B} (a : list A) (b : list B) :
  List.length a = List.length b -> map fst (combine a b) = a.
Proof.
  revert b. induction a as [|x a IH]; intros [|y b] H; simpl in *;
    try reflexivity; try discriminate.
  f_equal. apply IH. lia.
Qed.

Lemma map_snd_combine {A B} (a : list A) (b : list B) :
  List.length a = List.length b -> map snd (combine a b) = b.
Proof.
  revert b. induction a as [|x a IH]; intros [|y b] H; simpl in *;
    try reflexivity; try discriminate.
  f_equal. apply IH. lia.
Qed.

(** One entry of [DataFrame.cov()] on two columns without missing
    values. *)
Lemma cov_pair_finite (xs ys : list Q) :
  List.length xs = List.length ys -> (2 <= List.length xs)%nat ->
  cov_pair (map Fin xs) (map Fin ys) ~ sample_covariance xs ys.
Proof.
  intros Hlen Htwo. unfold cov_pair. rewrite pairs_all.
  set (both := map (fun p => (Fin (fst p), Fin (snd p))) (combine xs ys)).
  assert (Hfst : map fst both = map Fin xs).
  { unfold both. rewrite map_map. cbn [fst].
    rewrite <- (map_map fst Fin). now rewrite map_fst_combine. }
  assert (Hsnd : map snd both = map Fin ys).
  { unfold both. rewrite map_map. cbn [snd].
    rewrite <- (map_map snd Fin). now rewrite map_snd_combine. }
  assert (Hcount : List.length both = List.length xs).
  { unfold both. rewrite length_map, length_combine. lia. }
  assert (Hxs : xs <> []) by (intros ->; simpl in Htwo; lia).
  assert (Hys : ys <> []) by (intros ->; simpl in Hlen; lia).
  destruct both as [|b both'] eqn:Eboth;
    [simpl in Hcount; lia | rewrite <- Eboth in *; clear Eboth b both'].
  rewrite Hfst, Hsnd, Hcount. unfold sample_covariance.
  apply div_finite.
  - apply sum_finite. unfold both. rewrite map_map.
    apply Forall2_map. intros [x y] _. cbn [fst snd].
    apply mul_finite; apply sub_finite;
      try apply finite_refl; now apply mean_finite.
  - unfold of_nat, count. apply sub_finite; apply finite_refl.
  - now apply count_minus_one_nonzero.
Qed.

(** Every column of a frame has one entry per row. *)
Lemma frame_columns_length {C} (d : C) (df : Frame C) :
  Forall (fun c => List.length c = nrows df) (frame_columns d df).
Proof.
  unfold frame_columns. apply Forall_forall. intros c Hc.
  apply in_map_iff in Hc. destruct Hc as (j & <- & _).
  unfold column, nrows. now rewrite length_map.
Qed.

(** C6: on a frame without missing or infinite cells and with at least two
    rows, [mu = df.mean() * 252] holds for each asset the mean of its daily
    returns times 252, and [S = df.cov() * 252] holds for each pair of
    assets their sample covariance with the N-1 denominator times 252. *)
Theorem annualised_mean_and_covariance (df : Frame float)
    (returns : list (list Q)) :
  frame_columns NaN df = map (map Fin) returns ->
  (2 <= nrows df)%nat ->
  map fst (annual_mean df) = columns df
  /\ Forall2 (fun m q => m ~ q)
       (map snd (annual_mean df)) (expected_return_vector returns)
  /\ Forall2 (Forall2 (fun c q => c ~ q))
       (annual_cov df) (covariance_matrix returns).
Proof.
  intros Hcells Hrows.
  assert (Hlen : forall c, In c returns -> List.length c = nrows df).
  { pose proof (frame_columns_length NaN df) as H. rewrite Hcells in H.
    rewrite Forall_forall in H. intros c Hc.
    rewrite <- (H (map Fin c)); [now rewrite length_map | now apply in_map]. }
  assert (Hne : forall c, In c returns -> c <> []).
  { intros c Hc ->. specialize (Hlen _ Hc). simpl in Hlen. lia. }
  assert (Hnames : List.length (columns df)
                   = List.length (map (fun m => (m * TRADING_DAYS)%fl)
                                      (frame_mean df))).
  { unfold frame_mean, frame_columns.
    now rewrite !length_map, length_seq. }
  unfold annual_mean, annual_cov.
  rewrite (map_fst_combine _ _ Hnames), (map_snd_combine _ _ Hnames).
  unfold frame_mean, frame_cov. rewrite Hcells. split; [reflexivity|]. split.
  - unfold expected_return_vector. rewrite !map_map.
    apply Forall2_map. intros c Hc.
    apply mul_finite; [now apply mean_finite, Hne | apply finite_refl].
  - unfold covariance_matrix. rewrite !map_map.
    apply Forall2_map. intros ci Hci. rewrite !map_map.
    apply Forall2_map. intros cj Hcj.
    apply mul_finite; [|apply finite_refl].
    apply cov_pair_finite; rewrite (Hlen _ Hci); [now rewrite (Hlen _ Hcj)|].
    exact Hrows.
Qed.

Import StandIn.

Lemma sample_statistics :
  let df := snd (cleaned sample) in
  let returns := map (fun j => map (fun t => nth j (sample_row t) 0)
                                   (seq 0 30)) (seq 0 3) in
  frame_columns NaN df = map (map Fin) returns
  /\ (2 <= nrows df)%nat
  /\ map fst (annual_mean df) = columns df
  /\ Forall2 (fun m q => m ~ q)
       (map snd (annual_mean df)) (expected_return_vector returns)
  /\ Forall2 (Forall2 (fun c q => c ~ q))
       (annual_cov df) (covariance_matrix returns).
Proof.
  intros df returns.
  assert (H1 : frame_columns NaN df = map (map Fin) returns)
    by (vm_compute; reflexivity).
  assert (H2 : (2 <= nrows df)%nat) by (vm_compute; lia).
  split; [exact H1|]. split; [exact H2|].
  exact (annualised_mean_and_covariance df returns H1 H2).
Defined.

End Statistics.

(* ===================================================================== *)
(** * validate_csv_format: every outcome *)
(* ===================================================================== *)

Module ValidationOutcomes.

Import FloatFacts FormatValidation.

Lemma max_above_100_above_1 (cols : list (list float)) :
  (nanmax (map nanmax cols) >? Fin 100)%fl = true ->
  (nanmax (map nanmax cols) >? Fin 1)%fl = true.
Proof. apply above_100_above_1. Qed.

(** X1: a frame that [validate_csv_format] accepts has at least 30 rows and
    2 columns, no column of text, and no cell above 100. *)
Theorem accepted_frame_is_well_formed (df : Frame cell) (w w' : world) :
  validate_csv_format df w = (w', inr tt) ->
  (30 <= nrows df)%nat /\ (2 <= ncols df)%nat
  /\ non_numeric_cols df = []
  /\ any_cell (fun x => (x >? Fin 100)%fl)
       (frame_columns NaN (map_cells to_numeric_coerce df)) = false.
Proof.
  unfold validate_csv_format.
  destruct (empty df); [discriminate|].
  destruct (Nat.ltb_spec (nrows df) 30) as [|Hrows]; [discriminate|].
  destruct (Nat.ltb_spec (ncols df) 2) as [|Hcols]; [discriminate|].
  destruct (non_numeric_cols df) as [|c bad]; [|discriminate].
  unfold frame_max. rewrite <- max_exceeds.
  set (cells := frame_columns NaN (map_cells to_numeric_coerce df)).
  intros H. repeat (split; [assumption || reflexivity|]).
  destruct (nanmax (map nanmax cells) >? Fin 100)%fl eqn:Hmax;
    [|reflexivity].
  rewrite (max_above_100_above_1 cells Hmax) in H. discriminate.
Qed.

(** X2: [validate_csv_format] raises nothing but [ValueError], prints
    nothing when it raises, and each message tells what was found: a frame
    without rows or without columns is reported as empty, so the count in
    "too few observations" is between 1 and 29 and the count in "too few
    assets" is 1; the prices error is raised only on a frame that passed
    every other check and holds a cell above 100. *)
Theorem rejection_tells_what_was_found (df : Frame cell) (w w' : world)
    (e : exn) :
  validate_csv_format df w = (w', inl e) ->
  w' = w
  /\ match e with
     | ValueError CsvIsEmpty => nrows df = 0%nat \/ ncols df = 0%nat
     | ValueError (TooFewObservations n) =>
         n = nrows df /\ (0 < n < 30)%nat /\ (0 < ncols df)%nat
     | ValueError (TooFewAssets n) =>
         n = 1%nat /\ ncols df = 1%nat /\ (30 <= nrows df)%nat
     | ValueError (NonNumericColumns names) =>
         names = non_numeric_cols df /\ names <> []
         /\ (30 <= nrows df)%nat /\ (2 <= ncols df)%nat
     | ValueError LooksLikePrices =>
         (30 <= nrows df)%nat /\ (2 <= ncols df)%nat
         /\ non_numeric_cols df = []
         /\ any_cell (fun x => (x >? Fin 100)%fl)
              (frame_columns NaN (map_cells to_numeric_coerce df)) = true
     | _ => False
     end.
Proof.
  unfold validate_csv_format, empty.
  destruct (Nat.eqb_spec (nrows df) 0) as [Hr0|Hr0]; cbn [orb].
  { intros E. inversion E. subst. auto. }
  destruct (Nat.eqb_spec (ncols df) 0) as [Hc0|Hc0].
  { intros E. inversion E. subst. auto. }
  destruct (Nat.ltb_spec (nrows df) 30) as [Hrows|Hrows].
  { intros E. inversion E. subst. repeat split; lia. }
  destruct (Nat.ltb_spec (ncols df) 2) as [Hcols|Hcols].
  { intros E. inversion E. subst. repeat split; lia. }
  destruct (non_numeric_cols df) as [|c bad] eqn:Hbad.
  - unfold frame_max, print, ret. rewrite <- max_exceeds.
    destruct (_ || _).
    + destruct (nanmax _ >? Fin 100)%fl eqn:Hmax;
        [|intros E; discriminate E].
      intros E. inversion E. subst. repeat split; assumption || reflexivity.
    + intros E. discriminate E.
  - intros E. inversion E. subst. repeat split; try assumption.
    discriminate.
Qed.

Import StandIn.

Lemma sample_is_accepted :
  validate_csv_format sample start = (start, inr tt)
  /\ (30 <= nrows sample)%nat /\ (2 <= ncols sample)%nat
  /\ non_numeric_cols sample = []
  /\ any_cell (fun x => (x >? Fin 100)%fl)
       (frame_columns NaN (map_cells to_numeric_coerce sample)) = false.
Proof.
  assert (H : validate_csv_format sample start = (start, inr tt))
    by (vm_compute; reflexivity).
  split; [exact H|].
  exact (accepted_frame_is_well_formed sample start H).
Defined.

Lemma two_days_are_too_few :
  validate_csv_format two_days_of_prices start
  = (start, inl (ValueError (TooFewObservations 2)))
  /\ start = start
  /\ 2%nat = nrows two_days_of_prices /\ (0 < 2 < 30)%nat
  /\ (0 < ncols two_days_of_prices)%nat.
Proof.
  assert (H : validate_csv_format two_days_of_prices start
              = (start, inl (ValueError (TooFewObservations 2))))
    by (vm_compute; reflexivity).
  split; [exact H|].
  exact (rejection_tells_what_was_found two_days_of_prices start H).
Defined.

End ValidationOutcomes.

(* ===================================================================== *)
(** * clean_data: what it drops and what it returns *)
(* ===================================================================== *)

Module Cleaning.

Import FloatFacts Statistics.

Lemma tenth_of_positive (a b : Q) :
  (0 < a)%Q -> (0.1 < b / a <-> a < 10 * b)%Q.
Proof.
  intros Ha. split; intros H.
  - destruct (Qlt_le_dec a (10 * b)) as [|Hle]; [assumption|].
    exfalso. apply (Qlt_not_le _ _ H).
    apply Qle_shift_div_r; [assumption | lra].
  - apply Qlt_shift_div_l; [assumption | lra].
Qed.

(** The test of line 96 on a ratio of two counts, in whole numbers; with
    no rows the ratio is [0/0] and the test is False. *)
Lemma ratio_exceeds_tenth (k n : nat) :
  ((of_nat k / of_nat n) >? Fin 0.1)%fl = (n <? 10 * k)%nat.
Proof.
  unfold gtb, of_nat, Float.div.
  destruct (Qeq_bool (inject_Z (Z.of_nat n)) 0) eqn:En.
  - apply Qeq_bool_eq in En.
    assert (n = 0%nat) by (unfold Qeq in En; simpl in En; lia). subst n.
    destruct (Qeq_bool (inject_Z (Z.of_nat k)) 0) eqn:Ek.
    + apply Qeq_bool_eq in Ek.
      assert (k = 0%nat) by (unfold Qeq in Ek; simpl in Ek; lia).
      subst k. reflexivity.
    + apply Qeq_bool_neq in Ek.
      assert (Hk : k <> 0%nat).
      { intros ->. apply Ek. reflexivity. }
      unfold sign_of.
      destruct (Qle_bool (inject_Z (Z.of_nat k)) 0) eqn:El.
      * apply Qle_bool_iff in El. unfold Qle in El. simpl in El. lia.
      * simpl. symmetry. apply Nat.ltb_lt. lia.
  - apply Qeq_bool_neq in En.
    assert (Hn : (0 < inject_Z (Z.of_nat n))%Q).
    { unfold Qlt. simpl. destruct n; [exfalso; apply En; reflexivity|lia]. }
    cbn [ltb]. apply eq_iff_eq_true.
    rewrite Qltb_iff, Nat.ltb_lt, Qred_correct, (tenth_of_positive _ Hn).
    unfold Qlt, Qmult, inject_Z. cbn [Qnum Qden]. lia.
Qed.

Lemma filter_map_comm {A B} (f : A -> B) (p : B -> bool) (l : list A) :
  filter p (map f l) = map f (filter (fun x => p (f x)) l).
Proof.
  induction l as [|x l IH]; simpl; [reflexivity|].
  destruct (p (f x)); simpl; now rewrite IH.
Qed.

(** The names [clean_data] selects for dropping are those of the columns
    for which ten times the number of cells that are missing, infinite or
    text exceeds the number of rows left once duplicates are removed. *)
Theorem columns_dropped_above_one_tenth (df : Frame cell) :
  let converted :=
    map_cells inf_to_nan
      (map_cells to_numeric_coerce
         (drop_duplicated_index (drop_duplicates df))) in
  fst (cleaned df)
  = map fst
      (filter (fun it =>
                 (nrows converted
                  <? 10 * List.length (filter isna (snd it)))%nat)
              (items NaN converted)).
Proof.
  intros converted. unfold cleaned. cbn [fst]. fold converted.
  unfold nan_percentage. rewrite filter_map_comm, map_map. cbn [fst snd].
  f_equal. apply filter_ext. intros it. apply ratio_exceeds_tenth.
Qed.

(** ** The frame returned *)

Lemma clean_data_returns (df : Frame cell) (w w' : world)
    (df' : Frame float) :
  clean_data df w = (w', inr df') ->
  df' = snd (cleaned df) /\ (30 <= nrows df')%nat /\ (2 <= ncols df')%nat.
Proof.
  unfold clean_data. destruct (cleaned df) as [dropped cleaned_df].
  unfold bind. destruct (when_ _ _ w) as [wa [e|[]]]; [discriminate|].
  unfold print at 1.
  destruct (Nat.ltb_spec (nrows cleaned_df) 30) as [Hr|Hr]; [discriminate|].
  destruct (Nat.ltb_spec (ncols cleaned_df) 2) as [Hc|Hc]; [discriminate|].
  unfold ret. intros E. inversion E. subst. now repeat split.
Qed.

Lemma select_incl {A} (mask : list bool) (l : list A) :
  incl (select mask l) l.
Proof.
  revert l. induction mask as [|b mask IH]; intros [|x l]; simpl;
    try (intros y Hy; exact Hy).
  - intros y [].
  - destruct b.
    + intros y [->|Hy]; [now left | right; now apply IH].
    + intros y Hy. right. now apply IH.
Qed.

Lemma select_length {A} (mask : list bool) (l : list A) :
  (List.length (select mask l) <= List.length l)%nat.
Proof.
  revert l. induction mask as [|b mask IH]; intros [|x l]; simpl; try lia.
  specialize (IH l). destruct b; simpl; lia.
Qed.

Lemma inf_to_nan_no_infinity (x : float) : no_infinity (inf_to_nan x).
Proof. now destruct x. Qed.

(** the frame before [dropna], as [cleaned] builds it *)
Lemma before_dropna_no_infinity (df : Frame cell) :
  let df2 :=
    map_cells inf_to_nan
      (map_cells to_numeric_coerce
         (drop_duplicated_index (drop_duplicates df))) in
  forall names r,
    In r (rows (match names with
                | [] => df2
                | _ => drop_columns names df2
                end)) ->
    Forall no_infinity (snd r).
Proof.
  intros df2 names r Hr.
  assert (H2 : forall r2, In r2 (rows df2) -> Forall no_infinity (snd r2)).
  { intros r2 H. unfold df2, map_cells in H. cbn [rows] in H.
    apply in_map_iff in H. destruct H as (r1 & <- & _). cbn [snd].
    apply Forall_forall. intros x Hx. apply in_map_iff in Hx.
    destruct Hx as (y & <- & _). apply inf_to_nan_no_infinity. }
  destruct names as [|n names]; [now apply H2|].
  unfold drop_columns in Hr. cbn [rows] in Hr.
  apply in_map_iff in Hr. destruct Hr as (r2 & <- & Hr2). cbn [snd].
  apply Forall_forall. intros x Hx.
  apply (proj1 (Forall_forall _ _) (H2 _ Hr2)).
  eapply select_incl. exact Hx.
Qed.

Lemma dropna_all_finite (df : Frame float) :
  (forall r, In r (rows df) -> Forall no_infinity (snd r)) ->
  all_finite (dropna df).
Proof.
  intros Htame. unfold all_finite, frame_columns.
  apply Forall_forall. intros col Hcol.
  apply in_map_iff in Hcol. destruct Hcol as (j & <- & Hj).
  apply in_seq in Hj. unfold column. apply Forall_forall. intros x Hx.
  apply in_map_iff in Hx. destruct Hx as (r & <- & Hr).
  unfold dropna in Hr. cbn [rows] in Hr.
  apply filter_In in Hr. destruct Hr as [Hr Hkept].
  rewrite forallb_forall in Hkept.
  assert (Hpresent : notna (nth j (snd r) NaN) = true).
  { apply Hkept. apply in_map_iff. exists j. split; [reflexivity|].
    apply in_seq. unfold dropna, ncols in Hj. cbn [columns] in Hj.
    unfold ncols. lia. }
  assert (Hno : no_infinity (nth j (snd r) NaN)).
  { destruct (nth_in_or_default j (snd r) NaN) as [Hin|Hdef];
      [|rewrite Hdef; exact I].
    exact (proj1 (Forall_forall _ _) (Htame _ Hr) _ Hin). }
  destruct (nth j (snd r) NaN); simpl in *; try contradiction;
    try discriminate; reflexivity.
Qed.

Lemma cleaned_all_finite (df : Frame cell) : all_finite (snd (cleaned df)).
Proof.
  unfold cleaned. cbn [snd]. apply dropna_all_finite.
  apply before_dropna_no_infinity.
Qed.

(** X4: every cell of the frame [clean_data] returns is a finite number:
    no text, no missing value and no infinity reaches the optimiser. *)
Theorem clean_data_returns_finite_cells (df : Frame cell) (w w' : world)
    (df' : Frame float) :
  clean_data df w = (w', inr df') -> all_finite df'.
Proof.
  intros H. destruct (clean_data_returns _ _ H) as (-> & _).
  apply cleaned_all_finite.
Qed.

(** ** Labels *)

Section KeepFirst.
Context {A : Type}.
Variable key : A -> string.

Let same (x y : A) : bool := String.eqb (key x) (key y).

Lemma keep_first_keys (seen l : list A) :
  NoDup (map key (keep_first same seen l))
  /\ forall x, In x (keep_first same seen l) -> ~ In (key x) (map key seen).
Proof.
  revert seen. induction l as [|x l IH]; intros seen; simpl.
  - split; [constructor | intros x []].
  - destruct (existsb (same x) seen) eqn:Hseen; [apply IH|].
    destruct (IH (x :: seen)) as [Hnodup Hfresh].
    assert (Hx : ~ In (key x) (map key seen)).
    { intros Hin. apply in_map_iff in Hin. destruct Hin as (y & Ey & Hy).
      assert (Hex : existsb (same x) seen = true).
      { apply existsb_exists. exists y. split; [assumption|].
        unfold same. rewrite Ey. apply String.eqb_refl. }
      congruence. }
    split.
    + simpl. constructor; [|assumption].
      intros Hin. apply in_map_iff in Hin. destruct Hin as (y & Ey & Hy).
      apply (Hfresh y Hy). simpl. left. now symmetry.
    + intros y [<-|Hy]; [assumption|].
      intros Hin. apply (Hfresh y Hy). simpl. now right.
Qed.

End KeepFirst.

(** Dropping rows keeps the labels distinct. *)
Lemma kept_rows_distinct {C} (keep : string * list C -> bool)
    (rs : list (string * list C)) :
  NoDup (map fst rs) -> NoDup (map fst (filter keep rs)).
Proof.
  induction rs as [|r rs IH]; simpl; intros H; [constructor|].
  inversion H as [|? ? Hr Hrs]. subst.
  destruct (keep r); simpl; [|now apply IH].
  constructor; [|now apply IH].
  intros Hin. apply Hr. apply in_map_iff in Hin.
  destruct Hin as (y & Ey & Hy). apply filter_In in Hy.
  apply in_map_iff. exists y. tauto.
Qed.

Lemma cleaned_distinct_labels (df : Frame cell) :
  distinct_labels (snd (cleaned df)).
Proof.
  unfold distinct_labels, cleaned. cbn [snd]. unfold dropna. cbn [rows].
  apply kept_rows_distinct.
  assert (H1 : NoDup (map fst (rows (drop_duplicated_index
                                       (drop_duplicates df))))).
  { unfold drop_duplicated_index. cbn [rows].
    apply (keep_first_keys (@fst string (list cell))). }
  set (df1 := drop_duplicated_index (drop_duplicates df)) in *.
  assert (H2 : map fst (rows (map_cells inf_to_nan
                                (map_cells to_numeric_coerce df1)))
               = map fst (rows df1)).
  { unfold map_cells. cbn [rows]. rewrite !map_map. reflexivity. }
  destruct (map fst (filter _ (nan_percentage _))) as [|n names].
  - now rewrite H2.
  - unfold drop_columns. cbn [rows]. rewrite map_map. cbn [fst].
    rewrite <- H2 in H1. unfold map_cells in H1. cbn [rows] in H1.
    rewrite !map_map in H1. cbn [fst] in H1.
    unfold map_cells. cbn [rows]. rewrite !map_map. exact H1.
Qed.

(** X5: the rows of the frame [clean_data] returns carry pairwise distinct
    index labels: of several rows for one date only the first is kept. *)
Theorem clean_data_returns_distinct_labels (df : Frame cell) (w w' : world)
    (df' : Frame float) :
  clean_data df w = (w', inr df') -> distinct_labels df'.
Proof.
  intros H. destruct (clean_data_returns _ _ H) as (-> & _).
  apply cleaned_distinct_labels.
Qed.

(** ** Sizes *)

Lemma keep_first_length {A} (same : A -> A -> bool) (seen l : list A) :
  (List.length (keep_first same seen l) <= List.length l)%nat.
Proof.
  revert seen. induction l as [|x l IH]; intros seen; simpl; [lia|].
  destruct (existsb (same x) seen).
  - specialize (IH seen). lia.
  - specialize (IH (x :: seen)). simpl. lia.
Qed.

Lemma cleaned_only_removes (df : Frame cell) :
  (nrows (snd (cleaned df)) <= nrows df)%nat
  /\ (ncols (snd (cleaned df)) <= ncols df)%nat
  /\ incl (columns (snd (cleaned df))) (columns df).
Proof.
  unfold cleaned. cbn [snd].
  set (df1 := drop_duplicated_index (drop_duplicates df)).
  set (df2 := map_cells inf_to_nan (map_cells to_numeric_coerce df1)).
  assert (Hrows1 : (nrows df1 <= nrows df)%nat).
  { unfold df1, nrows, drop_duplicated_index, drop_duplicates. cbn [rows].
    etransitivity; apply keep_first_length. }
  assert (Hrows2 : nrows df2 = nrows df1).
  { unfold df2, nrows, map_cells. cbn [rows]. now rewrite !length_map. }
  assert (Hcols2 : columns df2 = columns df) by reflexivity.
  destruct (map fst (filter _ (nan_percentage df2))) as [|n names].
  - unfold nrows, ncols, dropna in *. cbn [rows columns]. rewrite Hcols2.
    split; [|split; [lia | apply incl_refl]].
    etransitivity; [apply filter_length_le|]. lia.
  - unfold nrows, ncols, dropna, drop_columns in *. cbn [rows columns].
    rewrite Hcols2. split; [|split].
    + etransitivity; [apply filter_length_le|].
      rewrite length_map. lia.
    + apply select_length.
    + apply select_incl.
Qed.

(** X6: [clean_data] only removes: the frame it returns has no more rows
    and no more columns than the frame it was given, and every column name
    of the result is a column name of the input. *)
Theorem clean_data_only_removes (df : Frame cell) (w w' : world)
    (df' : Frame float) :
  clean_data df w = (w', inr df') ->
  (nrows df' <= nrows df)%nat /\ (ncols df' <= ncols df)%nat
  /\ incl (columns df') (columns df).
Proof.
  intros H. destruct (clean_data_returns _ _ H) as (-> & _).
  apply cleaned_only_removes.
Qed.

End Cleaning.

(* ===================================================================== *)
(** * clean_data and the statistics; frames that are clean already *)
(* ===================================================================== *)

Module CleanFrames.

Import FloatFacts Statistics Cleaning.

Lemma finite_values (l : list float) :
  Forall (fun x => is_finite x = true) l -> exists qs, l = map Fin qs.
Proof.
  induction 1 as [|x l Hx _ (qs & ->)]; [now exists []|].
  destruct x; try discriminate. now exists (q :: qs).
Qed.

Lemma finite_columns (cols : list (list float)) :
  Forall (Forall (fun x => is_finite x = true)) cols ->
  exists returns, cols = map (map Fin) returns.
Proof.
  induction 1 as [|c cols Hc _ (returns & ->)]; [now exists []|].
  destruct (finite_values Hc) as (qs & ->). now exists (qs :: returns).
Qed.

Lemma finite_not_missing (x : float) (q : Q) : x ~ q -> isna x = false.
Proof. intros H. now destruct (finite_inv _ _ H) as (a & -> & _). Qed.

Lemma existsb_none {A} (p : A -> bool) (l : list A) :
  (forall x, In x l -> p x = false) -> existsb p l = false.
Proof.
  intros H. destruct (existsb p l) eqn:E; [|reflexivity].
  apply existsb_exists in E. destruct E as (x & Hx & Hp).
  rewrite (H x Hx) in Hp. discriminate.
Qed.

(** On finite cells and at least two rows neither statistic is missing. *)
Lemma statistics_defined (df : Frame float) :
  all_finite df -> (2 <= nrows df)%nat ->
  existsb isna (map snd (annual_mean df)) = false
  /\ existsb (existsb isna) (annual_cov df) = false.
Proof.
  intros Hfinite Hrows.
  destruct (finite_columns Hfinite) as (returns & Hcells).
  assert (Hlen : forall c, In c returns -> List.length c = nrows df).
  { pose proof (frame_columns_length NaN df) as H. rewrite Hcells in H.
    rewrite Forall_forall in H. intros c Hc.
    rewrite <- (H (map Fin c)); [now rewrite length_map | now apply in_map]. }
  assert (Hne : forall c, In c returns -> c <> []).
  { intros c Hc ->. specialize (Hlen _ Hc). simpl in Hlen. lia. }
  assert (Hnames : List.length (columns df)
                   = List.length (map (fun m => (m * TRADING_DAYS)%fl)
                                      (frame_mean df))).
  { unfold frame_mean, frame_columns.
    now rewrite !length_map, length_seq. }
  unfold annual_mean, annual_cov.
  rewrite (map_snd_combine _ _ Hnames).
  unfold frame_mean, frame_cov. rewrite Hcells. split.
  - apply existsb_none. intros x Hx.
    rewrite !map_map in Hx. apply in_map_iff in Hx.
    destruct Hx as (c & <- & Hc).
    eapply finite_not_missing, mul_finite;
      [now apply mean_finite, Hne | apply finite_refl].
  - apply existsb_none. intros row Hrow.
    rewrite !map_map in Hrow. apply in_map_iff in Hrow.
    destruct Hrow as (ci & <- & Hci).
    apply existsb_none. intros x Hx.
    rewrite !map_map in Hx. apply in_map_iff in Hx.
    destruct Hx as (cj & <- & Hcj).
    eapply finite_not_missing, mul_finite; [|apply finite_refl].
    apply cov_pair_finite; rewrite (Hlen _ Hci); [now rewrite (Hlen _ Hcj)|].
    exact Hrows.
Qed.

(** ** Frames with nothing to clean *)

Lemma keep_first_id {A} (same : A -> A -> bool) (seen l : list A) :
  (forall x s, In x l -> In s seen -> same x s = false) ->
  ForallOrdPairs (fun earlier later => same later earlier = false) l ->
  keep_first same seen l = l.
Proof.
  revert seen. induction l as [|x l IH]; intros seen Hseen Hpairs;
    [reflexivity|].
  inversion Hpairs as [|? ? Hx Hl]. subst. simpl.
  rewrite (existsb_none (same x) seen);
    [|intros s Hs; apply Hseen; [now left | assumption]].
  f_equal. apply IH; [|assumption].
  intros y s Hy [<-|Hs].
  - exact (proj1 (Forall_forall _ _) Hx y Hy).
  - apply Hseen; [now right | assumption].
Qed.

Lemma distinct_keys_pairs {A} (key : A -> string) (l : list A) :
  NoDup (map key l) ->
  ForallOrdPairs
    (fun earlier later => String.eqb (key later) (key earlier) = false) l.
Proof.
  induction l as [|x l IH]; simpl; intros H; [constructor|].
  inversion H as [|? ? Hx Hl]. subst. constructor; [|now apply IH].
  apply Forall_forall. intros y Hy. apply String.eqb_neq.
  intros E. apply Hx. rewrite <- E. now apply in_map.
Qed.

Lemma frame_eta {C} (df : Frame C) : mkFrame (columns df) (rows df) = df.
Proof. now destruct df. Qed.

Lemma filter_all {A} (p : A -> bool) (l : list A) :
  (forall x, In x l -> p x = true) -> filter p l = l.
Proof.
  induction l as [|x l IH]; intros H; simpl; [reflexivity|].
  rewrite (H x (or_introl eq_refl)). f_equal. apply IH.
  intros y Hy. apply H. now right.
Qed.

Lemma filter_none {A} (p : A -> bool) (l : list A) :
  (forall x, In x l -> p x = false) -> filter p l = [].
Proof.
  induction l as [|x l IH]; intros H; simpl; [reflexivity|].
  rewrite (H x (or_introl eq_refl)). apply IH.
  intros y Hy. apply H. now right.
Qed.

Section NothingToClean.
Variable df : Frame cell.
Hypothesis Hrect : rectangular df.
Hypothesis Hnum : numeric_cells df.

Let converted : Frame float := map_cells to_numeric_coerce df.

Lemma conversion_keeps_finite :
  map_cells inf_to_nan converted = converted.
Proof.
  unfold converted, map_cells. cbn [columns rows]. f_equal.
  rewrite map_map. cbn [fst snd]. apply map_ext_in. intros r Hr. f_equal.
  rewrite map_map. apply map_ext_in. intros c Hc.
  pose proof (proj1 (Forall_forall _ _) Hnum r Hr) as Hcells.
  destruct (proj1 (Forall_forall _ _) Hcells c Hc) as (q & ->). reflexivity.
Qed.

Lemma converted_cell_finite (r : string * list float) (j : nat) :
  In r (rows converted) -> (j < ncols converted)%nat ->
  is_finite (nth j (snd r) NaN) = true.
Proof.
  intros Hr Hj. unfold converted, map_cells in Hr. cbn [rows] in Hr.
  apply in_map_iff in Hr. destruct Hr as (r0 & <- & Hr0). cbn [snd].
  pose proof (proj1 (Forall_forall _ _) Hrect r0 Hr0) as Hlen.
  pose proof (proj1 (Forall_forall _ _) Hnum r0 Hr0) as Hcells.
  assert (Hin : In (nth j (map to_numeric_coerce (snd r0)) NaN)
                   (map to_numeric_coerce (snd r0))).
  { apply nth_In. rewrite length_map, Hlen. exact Hj. }
  apply in_map_iff in Hin. destruct Hin as (c & <- & Hc).
  destruct (proj1 (Forall_forall _ _) Hcells c Hc) as (q & ->). reflexivity.
Qed.

Lemma converted_all_finite : all_finite converted.
Proof.
  unfold all_finite, frame_columns. apply Forall_forall. intros col Hcol.
  apply in_map_iff in Hcol. destruct Hcol as (j & <- & Hj).
  apply in_seq in Hj. unfold column. apply Forall_forall. intros x Hx.
  apply in_map_iff in Hx. destruct Hx as (r & <- & Hr).
  apply converted_cell_finite; [assumption | lia].
Qed.

Lemma converted_nothing_missing :
  filter (fun p => (snd p >? Fin 0.1)%fl) (nan_percentage converted) = [].
Proof.
  unfold nan_percentage. rewrite filter_map_comm. cbn [snd].
  rewrite filter_none; [reflexivity|].
  intros it Hit. rewrite ratio_exceeds_tenth.
  assert (Hcol : Forall (fun x => is_finite x = true) (snd it)).
  { unfold items in Hit. destruct it as [name col].
    apply in_combine_r in Hit.
    exact (proj1 (Forall_forall _ _) converted_all_finite col Hit). }
  rewrite filter_none; [apply Nat.ltb_ge; simpl; lia|].
  intros x Hx. pose proof (proj1 (Forall_forall _ _) Hcol x Hx) as Hfin.
  now destruct x.
Qed.

Lemma converted_dropna : dropna converted = converted.
Proof.
  unfold dropna. rewrite filter_all; [apply frame_eta|].
  intros r Hr. apply forallb_forall. intros x Hx.
  apply in_map_iff in Hx. destruct Hx as (j & <- & Hj). apply in_seq in Hj.
  assert (Hfin : is_finite (nth j (snd r) NaN) = true)
    by (apply converted_cell_finite; [assumption | lia]).
  now destruct (nth j (snd r) NaN).
Qed.

Hypothesis Hrows : distinct_rows df.
Hypothesis Hlabels : distinct_labels df.

Lemma nothing_to_clean : cleaned df = ([], converted).
Proof.
  unfold cleaned.
  assert (H1 : drop_duplicates df = df).
  { unfold drop_duplicates.
    rewrite keep_first_id; [apply frame_eta | intros x s _ [] | exact Hrows]. }
  rewrite H1.
  assert (H2 : drop_duplicated_index df = df).
  { unfold drop_duplicated_index.
    rewrite keep_first_id; [apply frame_eta | intros x s _ [] |].
    apply (distinct_keys_pairs (@fst string (list cell))), Hlabels. }
  rewrite H2. fold converted.
  rewrite conversion_keeps_finite, converted_nothing_missing.
  cbn [map]. now rewrite converted_dropna.
Qed.

(** X8: a frame with nothing to clean passes [clean_data] unchanged: with
    at least 30 rows and 2 columns, one finite number in every cell, no two
    rows with the same values and no two with the same label, the result is
    the frame itself, and the only line printed is the one giving the same
    shape before and after. *)
Theorem clean_frame_passes_unchanged (w : world) :
  (30 <= nrows df)%nat -> (2 <= ncols df)%nat ->
  clean_data df w
  = (mkWorld (stdout w ++ [Processed (shape df) (shape df)]) (file w),
     inr (map_cells to_numeric_coerce df)).
Proof.
  intros H30 H2. unfold clean_data. rewrite nothing_to_clean.
  assert (Hshape : shape converted = shape df).
  { unfold shape, nrows, ncols, converted, map_cells. cbn [rows columns].
    now rewrite length_map. }
  unfold when_, bind, ret, print. cbn [List.length Nat.eqb negb].
  rewrite Hshape. cbn [stdout file].
  assert (Hr : nrows converted = nrows df) by (now inversion Hshape).
  assert (Hc : ncols converted = ncols df) by reflexivity.
  rewrite Hr, Hc.
  destruct (Nat.ltb_spec (nrows df) 30); [lia|].
  destruct (Nat.ltb_spec (ncols df) 2); [lia|].
  reflexivity.
Qed.

End NothingToClean.

End CleanFrames.

(* ===================================================================== *)
(** * Cleaning the sample *)
(* ===================================================================== *)

Module CleaningRuns.

Import Cleaning CleanFrames StandIn Fixtures.

Lemma not_same_as_seen {A} (same : A -> A -> bool) (x : A) (seen : list A) :
  existsb (same x) seen = false -> forall s, In s seen -> same x s = false.
Proof.
  intros H s Hs. destruct (same x s) eqn:E; [|reflexivity].
  assert (existsb (same x) seen = true)
    by (apply existsb_exists; now exists s).
  congruence.
Qed.

(** What [keep_first] keeps is pairwise different. *)
Lemma keep_first_pairs {A} (same : A -> A -> bool) (seen l : list A) :
  ForallOrdPairs (fun earlier later => same later earlier = false)
                 (keep_first same seen l)
  /\ Forall (fun x => forall s, In s seen -> same x s = false)
            (keep_first same seen l).
Proof.
  revert seen. induction l as [|x l IH]; intros seen; simpl.
  - split; constructor.
  - destruct (existsb (same x) seen) eqn:Hseen; [apply IH|].
    destruct (IH (x :: seen)) as [Hpairs Hfresh]. split.
    + constructor; [|assumption].
      apply Forall_forall. intros y Hy.
      apply (proj1 (Forall_forall _ _) Hfresh y Hy). now left.
    + constructor; [now apply not_same_as_seen|].
      apply Forall_forall. intros y Hy s Hs.
      apply (proj1 (Forall_forall _ _) Hfresh y Hy). now right.
Qed.

Lemma sample_rectangular : rectangular sample.
Proof.
  unfold rectangular. apply Forall_forall. intros r Hr.
  unfold sample in Hr. cbn [rows] in Hr. apply in_map_iff in Hr.
  destruct Hr as (t & <- & _). reflexivity.
Qed.

Lemma sample_numeric : numeric_cells sample.
Proof.
  unfold numeric_cells. apply Forall_forall. intros r Hr.
  unfold sample in Hr. cbn [rows] in Hr. apply in_map_iff in Hr.
  destruct Hr as (t & <- & _). cbn [snd]. apply Forall_forall.
  intros c Hc. apply in_map_iff in Hc. destruct Hc as (q & <- & _).
  now exists q.
Qed.

Lemma sample_distinct_rows : distinct_rows sample.
Proof.
  unfold distinct_rows.
  assert (E : keep_first (fun r s => same_values (snd r) (snd s)) []
                         (rows sample) = rows sample)
    by (vm_compute; reflexivity).
  rewrite <- E. apply keep_first_pairs.
Qed.

Lemma sample_distinct_labels : distinct_labels sample.
Proof.
  unfold distinct_labels.
  assert (E : keep_first (fun r s : string * list cell =>
                            String.eqb (fst r) (fst s)) []
                         (rows sample) = rows sample)
    by (vm_compute; reflexivity).
  rewrite <- E. apply (keep_first_keys (@fst string (list cell))).
Qed.

Lemma sample_is_cleaned :
  clean_data sample start
  = (mkWorld (stdout start ++ [Processed (shape sample) (shape sample)])
             (file start),
     inr (snd (cleaned sample))).
Proof. vm_compute. reflexivity. Qed.

Lemma sample_comes_out_finite :
  clean_data sample start
  = (mkWorld (stdout start ++ [Processed (shape sample) (shape sample)])
             (file start),
     inr (snd (cleaned sample)))
  /\ all_finite (snd (cleaned sample)).
Proof.
  split; [exact sample_is_cleaned|].
  exact (clean_data_returns_finite_cells sample start sample_is_cleaned).
Defined.

Lemma sample_comes_out_with_distinct_labels :
  clean_data sample start
  = (mkWorld (stdout start ++ [Processed (shape sample) (shape sample)])
             (file start),
     inr (snd (cleaned sample)))
  /\ distinct_labels (snd (cleaned sample)).
Proof.
  split; [exact sample_is_cleaned|].
  exact (clean_data_returns_distinct_labels sample start sample_is_cleaned).
Defined.

Lemma sample_comes_out_no_larger :
  clean_data sample start
  = (mkWorld (stdout start ++ [Processed (shape sample) (shape sample)])
             (file start),
     inr (snd (cleaned sample)))
  /\ (nrows (snd (cleaned sample)) <= nrows sample)%nat
  /\ (ncols (snd (cleaned sample)) <= ncols sample)%nat
  /\ incl (columns (snd (cleaned sample))) (columns sample).
Proof.
  split; [exact sample_is_cleaned|].
  exact (clean_data_only_removes sample start sample_is_cleaned).
Defined.

Lemma sample_passes_unchanged :
  rectangular sample /\ numeric_cells sample
  /\ distinct_rows sample /\ distinct_labels sample
  /\ (30 <= nrows sample)%nat /\ (2 <= ncols sample)%nat
  /\ clean_data sample start
     = (mkWorld (stdout start ++ [Processed (shape sample) (shape sample)])
                (file start),
        inr (map_cells to_numeric_coerce sample)).
Proof.
  assert (H30 : (30 <= nrows sample)%nat) by (vm_compute; lia).
  assert (H2 : (2 <= ncols sample)%nat) by (vm_compute; lia).
  split; [exact sample_rectangular|]. split; [exact sample_numeric|].
  split; [exact sample_distinct_rows|].
  split; [exact sample_distinct_labels|].
  split; [exact H30|]. split; [exact H2|].
  exact (clean_frame_passes_unchanged sample_rectangular sample_numeric
           sample_distinct_rows sample_distinct_labels start H30 H2).
Defined.

End CleaningRuns.

(* ===================================================================== *)
(** * The second solve, whatever it does *)
(* ===================================================================== *)

Module SecondSolve.

Import Effects Orchestration.

Section AfterMaxSharpe.
Context {L : Libraries}.
Variable df : Frame float.
Variables risk_level max_weight : float.
Variable w : world.
Variable mu : Series.
Variable S : list (list float).
Variables ef ef_solved : EF.
Variable cleaned_weights : weights.
Variable p : performance.
Hypothesis estimated : estimate df w = (w, inr (mu, S)).
Hypothesis covariance_checked : check_covariance S w = (w, inr tt).
Hypothesis constructed : EfficientFrontier mu S (Fin 0, max_weight) = inr ef.
Hypothesis solved : max_sharpe ef = inr ef_solved.
Hypothesis cleaned_ok : clean_weights ef_solved = inr cleaned_weights.
Hypothesis measured : portfolio_performance ef_solved = inr p.

Let volatility : float := snd (fst p).

Let reaches_risk_check :=
  @run_reaches_risk_check L df risk_level max_weight w mu S ef ef_solved
    cleaned_weights p estimated covariance_checked constructed solved
    cleaned_ok measured.

(** X9: once the max-Sharpe steps have succeeded, [optimize_portfolio]
    returns a result whatever the second solve does: no exception of
    [efficient_risk], of its [clean_weights] or of its
    [portfolio_performance] reaches the caller.  The weights returned are
    those of the first solve, or those [clean_weights] gave for the second
    one. *)
Theorem run_succeeds_once_max_sharpe_did :
  exists lines res,
    optimize_portfolio df risk_level max_weight w
    = (mkWorld (stdout w ++ lines) (file w), inr res)
    /\ (optimal_portfolio res = cleaned_weights
        \/ exists ef_risk,
             efficient_risk ef risk_level = inr ef_risk
             /\ clean_weights ef_risk = inr (optimal_portfolio res)).
Proof.
  rewrite reaches_risk_check. fold volatility.
  destruct (volatility >? risk_level)%fl.
  - unfold try_except, bind, apply_risk_constraint, try_except, bind, call.
    rewrite constructed.
    destruct (efficient_risk ef risk_level) as [e|ef_risk] eqn:Hrisk.
    + exists [VolatilityExceeds volatility risk_level;
              RiskConstraintFailed e; UsingMaxSharpe],
             (prepare_result cleaned_weights p).
      unfold print, ret. cbn [stdout file fst snd].
      rewrite <- !app_assoc. split; [reflexivity|].
      left. now destruct p as [[r v] s].
    + destruct (clean_weights ef_risk) as [e|cw2] eqn:Hclean.
      * exists [VolatilityExceeds volatility risk_level;
                RiskConstraintFailed e; UsingMaxSharpe],
               (prepare_result cleaned_weights p).
        unfold print, ret. cbn [stdout file fst snd].
        rewrite <- !app_assoc. split; [reflexivity|].
        left. now destruct p as [[r v] s].
      * destruct (portfolio_performance ef_risk) as [e|p2].
        -- exists [VolatilityExceeds volatility risk_level;
                   RiskConstraintFailed e; UsingMaxSharpe],
                  (prepare_result cw2 p).
           unfold print, ret. cbn [stdout file fst snd].
           rewrite <- !app_assoc. split; [reflexivity|].
           right. exists ef_risk. split; [reflexivity|].
           rewrite Hclean. now destruct p as [[r v] s].
        -- exists [VolatilityExceeds volatility risk_level;
                   RiskConstraintApplied],
                  (prepare_result cw2 p2).
           unfold print, ret. cbn [stdout file fst snd].
           rewrite <- !app_assoc. split; [reflexivity|].
           right. exists ef_risk. split; [reflexivity|].
           rewrite Hclean. now destruct p2 as [[r v] s].
  - exists [], (prepare_result cleaned_weights p).
    unfold try_except, bind, ret. cbn [fst snd].
    rewrite app_nil_r, world_eta. split; [reflexivity|].
    left. now destruct p as [[r v] s].
Qed.

(** X10: when the volatility of the max-Sharpe portfolio exceeds the risk
    level and the second solve succeeds, with its cleaned weights and its
    performance, these replace the max-Sharpe ones in the result, and the
    two lines printed say so. *)
Theorem constrained_result_replaces_max_sharpe
    (ef_risk : EF) (constrained : weights) (p2 : performance) :
  (volatility >? risk_level)%fl = true ->
  efficient_risk ef risk_level = inr ef_risk ->
  clean_weights ef_risk = inr constrained ->
  portfolio_performance ef_risk = inr p2 ->
  optimize_portfolio df risk_level max_weight w =
    (mkWorld
       (stdout w ++ [VolatilityExceeds volatility risk_level;
                     RiskConstraintApplied])
       (file w),
     inr (prepare_result constrained p2)).
Proof.
  intros Hexceeds Hrisk Hclean Hperf.
  rewrite reaches_risk_check. fold volatility. rewrite Hexceeds.
  unfold try_except, bind, apply_risk_constraint, try_except, bind, call.
  rewrite constructed, Hrisk, Hclean, Hperf.
  unfold print, ret. cbn [stdout file fst snd].
  now rewrite <- !app_assoc.
Qed.

End AfterMaxSharpe.

End SecondSolve.

(* ===================================================================== *)
(** * What the endpoints answer *)
(* ===================================================================== *)

Module Responses.

Import Effects Requests Cleaning.

Section WithLibraries.
Context {L : Libraries}.
Variables risk_level max_weight : float.

Lemma optimize_raises (df : Frame float) (w w' : world) (e : exn) :
  optimize_portfolio df risk_level max_weight w = (w', inl e) ->
  e = ValueError ExpectedReturnsUndefined
  \/ e = ValueError CovarianceUndefined
  \/ e = ValueError CovarianceNotPositive
  \/ (exists cause, e = ValueError (OptimizationFailed cause))
  \/ eigvals (annual_cov df) = inl e.
Proof.
  unfold optimize_portfolio, estimate, check_covariance, bind at 1 2 3.
  destruct (existsb isna _).
  { intros E. inversion E. auto. }
  destruct (existsb (existsb isna) _).
  { intros E. inversion E. auto. }
  unfold ret at 1. cbn [fst snd]. unfold call.
  destruct (eigvals (annual_cov df)) as [err|evs].
  { intros E. inversion E. subst. auto 6. }
  destruct (existsb _ evs).
  { intros E. inversion E. auto. }
  unfold ret at 1, try_except.
  destruct (solve _ _ _ _ w) as [w1 [cause|r]]; intros E; inversion E.
  right. right. right. left. now exists cause.
Qed.

(** X12: [optimize_portfolio] raises nothing but [ValueError], with one of
    its three fixed messages or with the message that wraps the exception
    of a library call of the solve, except for an exception of
    [np.linalg.eigvals], which lies outside the [try] and reaches the
    caller as it is. *)
Theorem optimize_raises_value_error_or_eigvals_error
    (df : Frame float) (w w' : world) (e : exn) :
  optimize_portfolio df risk_level max_weight w = (w', inl e) ->
  e = ValueError ExpectedReturnsUndefined
  \/ e = ValueError CovarianceUndefined
  \/ e = ValueError CovarianceNotPositive
  \/ (exists cause, e = ValueError (OptimizationFailed cause))
  \/ eigvals (annual_cov df) = inl e.
Proof. apply optimize_raises. Qed.

(** X13: a risk level or a maximum weight outside its range, NaN included,
    is answered with 422 by both endpoints before the upload is touched:
    nothing is read and nothing is printed.  The risk level is checked
    first. *)
Theorem out_of_range_parameters_rejected_unread (w : world) :
  in_range risk_level (Fin 2) && in_range max_weight (Fin 1) = false ->
  let detail :=
    if in_range risk_level (Fin 2)
    then MaxWeightOutOfRange max_weight
    else RiskLevelOutOfRange risk_level in
  optimize_portfolio_endpoint risk_level max_weight w
  = (w, inl (HTTPException 422 detail))
  /\ optimize_portfolio_detailed_endpoint risk_level max_weight w
     = (w, inl (HTTPException 422 detail)).
Proof.
  intros Hrange detail. subst detail.
  unfold optimize_portfolio_detailed_endpoint, optimize_portfolio_endpoint,
    receive, try_except, bind, when_.
  destruct (in_range risk_level (Fin 2)); cbn [negb].
  - destruct (in_range max_weight (Fin 1)); [discriminate|].
    cbn [negb]. now split.
  - now split.
Qed.

(** X14: with both parameters in range, a file name that does not end in
    [.csv], in any case of the letters, is answered with 422, and an upload
    without a name with 500; in both cases before the upload is read. *)
Theorem unusable_file_name_rejected_unread (w : world) :
  in_range risk_level (Fin 2) = true ->
  in_range max_weight (Fin 1) = true ->
  match filename (file w) with
  | Some name => endswith (lower name) ".csv"
  | None => false
  end = false ->
  optimize_portfolio_endpoint risk_level max_weight w
  = (w, inl match filename (file w) with
            | Some _ => HTTPException 422 NotACsvFile
            | None => HTTPException 500 (InternalServerError AttributeError)
            end).
Proof.
  intros Hrisk Hweight Hname.
  unfold optimize_portfolio_endpoint, receive, try_except, bind, when_,
    filename_lower.
  rewrite Hrisk, Hweight. cbn [negb]. unfold ret at 1 2.
  destruct (filename (file w)) as [name|]; [|reflexivity].
  rewrite Hname. reflexivity.
Qed.

End WithLibraries.

End Responses.

(* ===================================================================== *)
(** * Status codes of the main endpoint *)
(* ===================================================================== *)

Module StatusCodes.

Import Effects Requests Cleaning Responses.

Lemma validate_raises_ValueError (df : Frame cell) :
  triple (fun _ => True) (validate_csv_format df)
         (fun _ _ => True) (fun e _ => is_ValueError e = true).
Proof.
  intros w _. unfold validate_csv_format.
  destruct (empty df); [reflexivity|].
  destruct (nrows df <? 30)%nat; [reflexivity|].
  destruct (ncols df <? 2)%nat; [reflexivity|].
  destruct (non_numeric_cols df); [|reflexivity].
  destruct (_ || _); [|exact I].
  destruct (_ >? _)%fl; [reflexivity | exact I].
Qed.

Lemma clean_data_raises_ValueError (df : Frame cell) :
  triple (fun _ => True) (clean_data df)
         (fun _ _ => True) (fun e _ => is_ValueError e = true).
Proof.
  intros w _. unfold clean_data. destruct (cleaned df) as [dropped df'].
  unfold bind, when_.
  destruct (negb _); cbn [print ret];
    (destruct (nrows df' <? 30)%nat; [reflexivity|]);
    (destruct (ncols df' <? 2)%nat; [reflexivity | exact I]).
Qed.

Section WithLibraries.
Context {L : Libraries}.
Variables risk_level max_weight : float.

(** how steps 1 to 7 can fail, before the last handler *)
Let body_failure (e : exn) : Prop :=
  unprocessable e \/ e = AttributeError \/ escapes_step_6 e.

Lemma triple_step {A} (c : Py A) (detail : exn -> message)
    (R0 : exn -> Prop) :
  triple (fun _ => True) c (fun _ _ => True) (fun e _ => R0 e) ->
  (forall e, R0 e -> is_ValueError e = false -> escapes_step_6 e) ->
  triple (fun _ => True)
    (try_except_ValueError c
       (fun e => raise (HTTPException 422 (detail e))))
    (fun _ _ => True) (fun e _ => body_failure e).
Proof.
  intros Hc Hescape. unfold try_except_ValueError.
  apply triple_try with (R' := fun e _ => R0 e).
  - eapply triple_weaken; [exact Hc | auto | auto | auto].
  - intros e w He. destruct (is_ValueError e) eqn:Ev.
    + left. now exists (detail e).
    + right. right. now apply Hescape.
Qed.

Lemma optimize_raises_triple (df : Frame float) :
  triple (fun _ => True) (optimize_portfolio df risk_level max_weight)
         (fun _ _ => True)
         (fun e _ => is_ValueError e = true
                     \/ exists S, eigvals S = inl e).
Proof.
  intros w _.
  destruct (optimize_portfolio df risk_level max_weight w)
    as [w' [e|r]] eqn:H; [|exact I].
  destruct (optimize_raises _ _ _ _ H)
    as [->|[->|[->|[(cause & ->)|Heig]]]]; auto.
  right. now exists (annual_cov df).
Qed.

Lemma receive_fails_as_body :
  triple (fun _ => True) (receive risk_level max_weight)
         (fun _ _ => True) (fun e _ => body_failure e).
Proof.
  unfold receive.
  apply triple_bind with (Q' := fun _ _ => True).
  { intros w _. unfold when_. destruct (negb _); [|exact I].
    left. now eexists. }
  intros _. apply triple_bind with (Q' := fun _ _ => True).
  { intros w _. unfold when_. destruct (negb _); [|exact I].
    left. now eexists. }
  intros _. apply triple_bind with (Q' := fun _ _ => True).
  { intros w _. unfold filename_lower.
    destruct (filename (file w)); [exact I | now right; left]. }
  intros name. apply triple_bind with (Q' := fun _ _ => True).
  { intros w _. unfold when_. destruct (negb _); [|exact I].
    left. now eexists. }
  intros _. apply triple_bind with (Q' := fun _ _ => True).
  { apply triple_try with (R' := fun _ _ => True); [apply triple_any|].
    intros e w _. destruct e; left; now eexists. }
  intros df. apply triple_bind with (Q' := fun _ _ => True).
  { apply triple_step with (R0 := fun e => is_ValueError e = true).
    - apply validate_raises_ValueError.
    - intros e He Hne. congruence. }
  intros _. now apply triple_ret.
Qed.

Lemma body_fails_as_body :
  triple (fun _ => True)
    (df <- receive risk_level max_weight ;;
     df_clean <- try_except_ValueError (clean_data df)
       (fun e => raise (HTTPException 422 (CleaningFailed e))) ;;
     result <- try_except_ValueError
       (optimize_portfolio df_clean risk_level max_weight)
       (fun e => raise (HTTPException 422 (OptimizationRejected e))) ;;
     ret (optimal_portfolio result))
    (fun _ _ => True) (fun e _ => body_failure e).
Proof.
  apply triple_bind with (Q' := fun _ _ => True);
    [apply receive_fails_as_body | intros df].
  apply triple_bind with (Q' := fun _ _ => True).
  { apply triple_step with (R0 := fun e => is_ValueError e = true).
    - apply clean_data_raises_ValueError.
    - intros e He Hne. congruence. }
  intros df_clean. apply triple_bind with (Q' := fun _ _ => True).
  { apply triple_step
      with (R0 := fun e => is_ValueError e = true
                           \/ exists S, eigvals S = inl e).
    - apply optimize_raises_triple.
    - intros e [He|He] Hne; [congruence | now split]. }
  intros result. now apply triple_ret.
Qed.

(** X16: a request the main endpoint does not answer with a portfolio is
    answered with 422, with two exceptions: an upload without a file name
    gives 500, and an exception of [np.linalg.eigvals] that is not a
    [ValueError] passes the handler of step 6 and is answered by the last
    handler.  A failure of the format check, of the cleaning or of the
    solver never gives 500. *)
Theorem failures_are_422_but_for_two (w w' : world) (e : exn) :
  optimize_portfolio_endpoint risk_level max_weight w = (w', inl e) ->
  unprocessable e
  \/ e = HTTPException 500 (InternalServerError AttributeError)
  \/ exists cause, escapes_step_6 cause /\ e = answer_to cause.
Proof.
  intros H. pose proof body_fails_as_body as Hbody.
  specialize (Hbody w I).
  unfold optimize_portfolio_endpoint, try_except in H.
  destruct (bind _ _ w) as [wb [cause|x]]; [|discriminate].
  destruct Hbody as [(detail & ->)|[->|Hescape]].
  - inversion H. left. now exists detail.
  - inversion H. auto.
  - right. right. exists cause. split; [assumption|].
    unfold answer_to. destruct (is_HTTPException cause); now inversion H.
Qed.

(** X15: a portfolio in the answer of the main endpoint means that both
    parameters were in range, that the file name ended in [.csv], and that
    the weights are those of [optimize_portfolio] on a frame of at least 30
    rows and 2 columns with a finite number in every cell. *)
Theorem portfolio_means_checked_request (w w' : world)
    (portfolio : weights) :
  optimize_portfolio_endpoint risk_level max_weight w = (w', inr portfolio) ->
  in_range risk_level (Fin 2) = true
  /\ in_range max_weight (Fin 1) = true
  /\ (exists name, filename (file w) = Some name
                   /\ endswith (lower name) ".csv" = true)
  /\ exists df_clean w2 res,
       (30 <= nrows df_clean)%nat /\ (2 <= ncols df_clean)%nat
       /\ all_finite df_clean
       /\ optimize_portfolio df_clean risk_level max_weight w2 = (w', inr res)
       /\ portfolio = optimal_portfolio res.
Proof.
  unfold optimize_portfolio_endpoint, try_except at 1.
  destruct (bind _ _ w) as [wb [e|x]] eqn:Hbody.
  { destruct (is_HTTPException e); intros E; discriminate E. }
  intros E. inversion E. subst. clear E.
  unfold bind at 1 in Hbody.
  destruct (receive risk_level max_weight w) as [w1 [e|df]] eqn:Hreceive;
    [discriminate|].
  unfold bind at 1, try_except_ValueError at 1, try_except at 1 in Hbody.
  destruct (clean_data df w1) as [w2 [e|df_clean]] eqn:Hclean.
  { destruct (is_ValueError e); discriminate. }
  unfold bind at 1, try_except_ValueError, try_except in Hbody.
  destruct (optimize_portfolio df_clean risk_level max_weight w2)
    as [w3 [e|res]] eqn:Hopt.
  { destruct (is_ValueError e); discriminate. }
  unfold ret in Hbody. inversion Hbody. subst. clear Hbody.
  destruct (clean_data_returns _ _ Hclean) as (Hdf & H30 & H2).
  assert (Hchecked :
            in_range risk_level (Fin 2) = true
            /\ in_range max_weight (Fin 1) = true
            /\ exists name, filename (file w) = Some name
                            /\ endswith (lower name) ".csv" = true).
  { clear Hclean Hopt. unfold receive, bind, when_ in Hreceive.
    destruct (in_range risk_level (Fin 2)); [|discriminate].
    destruct (in_range max_weight (Fin 1)); [|discriminate].
    cbn [negb] in Hreceive. unfold ret at 1 2, filename_lower in Hreceive.
    destruct (filename (file w)) as [name|]; [|discriminate].
    destruct (endswith (lower name) ".csv") eqn:Hcsv; [|discriminate].
    split; [reflexivity|]. split; [reflexivity|]. now exists name. }
  destruct Hchecked as (Hrisk & Hweight & Hname).
  repeat (split; [assumption|]).
  exists df_clean, w2, res. repeat (split; [assumption || reflexivity|]).
  split; [|split; [assumption | reflexivity]].
  rewrite Hdf. apply cleaned_all_finite.
Qed.

End WithLibraries.

End StatusCodes.

(* ===================================================================== *)
(** * Runs of the optimiser and of the endpoints *)
(* ===================================================================== *)

Module Runs.

Import Orchestration SecondSolve Responses StatusCodes StandIn Fixtures.

Ltac run := vm_compute; reflexivity.

Lemma sample_run_succeeds_at_4_percent :
  let L := libraries sample in
  let df := snd (cleaned sample) in
  let mu := annual_mean df in
  let S := annual_cov df in
  let ef := mkFrontier mu S (Fin 0, Fin 0.5) None in
  let raw := equal_weights ef in
  let cw := clean (map fst mu) raw in
  exists lines res,
    optimize_portfolio df (Fin 0.04) (Fin 0.5) start
    = (mkWorld (stdout start ++ lines) (file start), inr res)
    /\ (optimal_portfolio res = cw
        \/ exists ef_risk,
             efficient_risk ef (Fin 0.04) = inr ef_risk
             /\ clean_weights ef_risk = inr (optimal_portfolio res)).
Proof.
  intros L df mu S ef raw cw.
  set (p := (dot raw (map snd mu), volatility S raw,
             (dot raw (map snd mu) / volatility S raw)%fl)).
  assert (H1 : estimate df start = (start, inr (mu, S))) by run.
  assert (H2 : check_covariance S start = (start, inr tt)) by run.
  assert (H3 : EfficientFrontier mu S (Fin 0, Fin 0.5) = inr ef) by run.
  assert (H4 : max_sharpe ef = inr (with_weights ef raw)) by run.
  assert (H5 : clean_weights (with_weights ef raw) = inr cw) by run.
  assert (H6 : portfolio_performance (with_weights ef raw) = inr p) by run.
  exact (run_succeeds_once_max_sharpe_did (L := L)
           df (Fin 0.04) (Fin 0.5) H1 H2 H3 H4 H5 H6).
Defined.

Lemma calm_weights_replace_equal_weights :
  let L := libraries_with sample calm_solver performance_of in
  let df := snd (cleaned sample) in
  let mu := annual_mean df in
  let S := annual_cov df in
  let ef := mkFrontier mu S (Fin 0, Fin 0.5) None in
  let raw := equal_weights ef in
  let p := (dot raw (map snd mu), volatility S raw,
            (dot raw (map snd mu) / volatility S raw)%fl) in
  let constrained := clean (map fst mu) calm_weights in
  let p2 := (dot calm_weights (map snd mu), volatility S calm_weights,
             (dot calm_weights (map snd mu)
              / volatility S calm_weights)%fl) in
  (snd (fst p) >? Fin 0.04)%fl = true
  /\ efficient_risk ef (Fin 0.04) = inr (with_weights ef calm_weights)
  /\ optimize_portfolio df (Fin 0.04) (Fin 0.5) start
     = (mkWorld
          (stdout start ++ [VolatilityExceeds (snd (fst p)) (Fin 0.04);
                            RiskConstraintApplied])
          (file start),
        inr (prepare_result constrained p2)).
Proof.
  intros L df mu S ef raw p constrained p2.
  set (cw := clean (map fst mu) raw).
  set (ef_risk := with_weights ef calm_weights).
  assert (H1 : estimate df start = (start, inr (mu, S))) by run.
  assert (H2 : check_covariance S start = (start, inr tt)) by run.
  assert (H3 : EfficientFrontier mu S (Fin 0, Fin 0.5) = inr ef) by run.
  assert (H4 : max_sharpe ef = inr (with_weights ef raw)) by run.
  assert (H5 : clean_weights (with_weights ef raw) = inr cw) by run.
  assert (H6 : portfolio_performance (with_weights ef raw) = inr p) by run.
  assert (H7 : (snd (fst p) >? Fin 0.04)%fl = true) by run.
  assert (H8 : efficient_risk ef (Fin 0.04) = inr ef_risk) by run.
  assert (H9 : clean_weights ef_risk = inr constrained) by run.
  assert (H10 : portfolio_performance ef_risk = inr p2) by run.
  split; [exact H7|]. split; [exact H8|].
  exact (constrained_result_replaces_max_sharpe (L := L)
           df (Fin 0.04) (Fin 0.5) H1 H2 H3 H4 H5 H6 H7 H8 H9 H10).
Defined.

Lemma calm_weights_with_equal_weight_metrics :
  let L := libraries_with sample calm_solver touchy_performance in
  let df := snd (cleaned sample) in
  let mu := annual_mean df in
  let S := annual_cov df in
  let ef := mkFrontier mu S (Fin 0, Fin 0.5) None in
  let raw := equal_weights ef in
  let p := (dot raw (map snd mu), volatility S raw,
            (dot raw (map snd mu) / volatility S raw)%fl) in
  let constrained := clean (map fst mu) calm_weights in
  let e := LibraryError false "no performance" in
  portfolio_performance (with_weights ef calm_weights) = inl e
  /\ optimize_portfolio df (Fin 0.04) (Fin 0.5) start
     = (mkWorld
          (stdout start ++ [VolatilityExceeds (snd (fst p)) (Fin 0.04);
                            RiskConstraintFailed e;
                            UsingMaxSharpe])
          (file start),
        inr (prepare_result constrained p)).
Proof.
  intros L df mu S ef raw p constrained e.
  set (cw := clean (map fst mu) raw).
  set (ef_risk := with_weights ef calm_weights).
  assert (H1 : estimate df start = (start, inr (mu, S))) by run.
  assert (H2 : check_covariance S start = (start, inr tt)) by run.
  assert (H3 : EfficientFrontier mu S (Fin 0, Fin 0.5) = inr ef) by run.
  assert (H4 : max_sharpe ef = inr (with_weights ef raw)) by run.
  assert (H5 : clean_weights (with_weights ef raw) = inr cw) by run.
  assert (H6 : portfolio_performance (with_weights ef raw) = inr p) by run.
  assert (H7 : (snd (fst p) >? Fin 0.04)%fl = true) by run.
  assert (H8 : efficient_risk ef (Fin 0.04) = inr ef_risk) by run.
  assert (H9 : clean_weights ef_risk = inr constrained) by run.
  assert (H10 : portfolio_performance ef_risk = inl e) by run.
  split; [exact H10|].
  exact (failed_second_performance_mixes_results (L := L)
           df (Fin 0.04) (Fin 0.5) H1 H2 H3 H4 H5 H6 H7 H8 H9 H10).
Defined.

Lemma single_day_has_no_covariance :
  let L := libraries sample in
  let e := ValueError CovarianceUndefined in
  optimize_portfolio single_day (Fin 0.5) (Fin 0.5) start = (start, inl e)
  /\ (e = ValueError ExpectedReturnsUndefined
      \/ e = ValueError CovarianceUndefined
      \/ e = ValueError CovarianceNotPositive
      \/ (exists cause, e = ValueError (OptimizationFailed cause))
      \/ eigvals (annual_cov single_day) = inl e).
Proof.
  intros L e.
  assert (H : optimize_portfolio single_day (Fin 0.5) (Fin 0.5) start
              = (start, inl e)) by run.
  split; [exact H|].
  exact (optimize_raises_value_error_or_eigvals_error (L := L)
           (Fin 0.5) (Fin 0.5) single_day start H).
Defined.

Lemma risk_level_3_rejected_unread :
  let L := libraries sample in
  in_range (Fin 3) (Fin 2) && in_range (Fin 0.5) (Fin 1) = false
  /\ optimize_portfolio_endpoint (Fin 3) (Fin 0.5) start
     = (start, inl (HTTPException 422 (RiskLevelOutOfRange (Fin 3))))
  /\ optimize_portfolio_detailed_endpoint (Fin 3) (Fin 0.5) start
     = (start, inl (HTTPException 422 (RiskLevelOutOfRange (Fin 3)))).
Proof.
  intros L.
  assert (H : in_range (Fin 3) (Fin 2) && in_range (Fin 0.5) (Fin 1) = false)
    by reflexivity.
  split; [exact H|].
  exact (out_of_range_parameters_rejected_unread (L := L)
           (Fin 3) (Fin 0.5) start H).
Defined.

Lemma nameless_upload_answered_500 :
  let L := libraries sample in
  in_range (Fin 0.5) (Fin 2) = true
  /\ in_range (Fin 0.5) (Fin 1) = true
  /\ optimize_portfolio_endpoint (Fin 0.5) (Fin 0.5) nameless
     = (nameless,
        inl (HTTPException 500 (InternalServerError AttributeError))).
Proof.
  intros L.
  assert (H1 : in_range (Fin 0.5) (Fin 2) = true) by reflexivity.
  assert (H2 : in_range (Fin 0.5) (Fin 1) = true) by reflexivity.
  assert (H3 : match filename (file nameless) with
               | Some name => endswith (lower name) ".csv"
               | None => false
               end = false) by reflexivity.
  split; [exact H1|]. split; [exact H2|].
  exact (unusable_file_name_rejected_unread (L := L)
           (Fin 0.5) (Fin 0.5) nameless H1 H2 H3).
Defined.

Lemma sample_portfolio_means_checked_request :
  let L := libraries sample in
  let w' := fst (optimize_portfolio_endpoint (Fin 0.5) (Fin 0.5) start) in
  let portfolio := clean sample_columns
                     [Fin (1 # 3); Fin (1 # 3); Fin (1 # 3)] in
  optimize_portfolio_endpoint (Fin 0.5) (Fin 0.5) start
  = (w', inr portfolio)
  /\ in_range (Fin 0.5) (Fin 2) = true
  /\ in_range (Fin 0.5) (Fin 1) = true
  /\ (exists name, filename (file start) = Some name
                   /\ endswith (lower name) ".csv" = true)
  /\ exists df_clean w2 res,
       (30 <= nrows df_clean)%nat /\ (2 <= ncols df_clean)%nat
       /\ all_finite df_clean
       /\ optimize_portfolio df_clean (Fin 0.5) (Fin 0.5) w2 = (w', inr res)
       /\ portfolio = optimal_portfolio res.
Proof.
  intros L w' portfolio.
  assert (H : optimize_portfolio_endpoint (Fin 0.5) (Fin 0.5) start
              = (w', inr portfolio)) by run.
  split; [exact H|].
  exact (portfolio_means_checked_request (L := L)
           (Fin 0.5) (Fin 0.5) start H).
Defined.

Lemma repeated_rows_answered_422 :
  let L := libraries repeated in
  let w' := fst (optimize_portfolio_endpoint (Fin 0.5) (Fin 0.5) start) in
  let e := HTTPException 422
             (CleaningFailed (ValueError (TooFewObservationsLeft 1))) in
  optimize_portfolio_endpoint (Fin 0.5) (Fin 0.5) start = (w', inl e)
  /\ (unprocessable e
      \/ e = HTTPException 500 (InternalServerError AttributeError)
      \/ exists cause, escapes_step_6 cause /\ e = answer_to cause).
Proof.
  intros L w' e.
  assert (H : optimize_portfolio_endpoint (Fin 0.5) (Fin 0.5) start
              = (w', inl e)) by run.
  split; [exact H|].
  exact (failures_are_422_but_for_two (L := L)
           (Fin 0.5) (Fin 0.5) start H).
Defined.

End Runs.

(* ===================================================================== *)
(** * The cleaning of the weights *)
(* ===================================================================== *)

Module WeightCleaning.

Import Orchestration.

Local Open Scope Q_scope.








Import StandIn Fixtures.





End WeightCleaning.

(* ===================================================================== *)
(** * Where the two minima are checked *)
(* ===================================================================== *)

Module Minima.

Import Requests Responses StandIn Fixtures.

(** C7, as the code has it: the minima are checked again by [clean_data],
    not by [optimize_portfolio].  When the frame left by the cleaning has
    fewer than 30 rows or fewer than 2 columns, [clean_data] raises one of
    its two too-little-data errors and the request ends in a 422 response
    carrying it.  [optimize_portfolio] holds no test of the shape: on no
    frame, however short, does it raise a too-little-data error of its
    own; what it raises is another [ValueError] of the module or the
    exception of [np.linalg.eigvals]. *)
Theorem minima_checked_by_clean_data_only {L : Libraries}
    (risk_level max_weight : float) (w w1 : world) (df : Frame cell) :
  receive risk_level max_weight w = (w1, inr df) ->
  (nrows (snd (cleaned df)) < 30 \/ ncols (snd (cleaned df)) < 2)%nat ->
  (exists w' m,
      insufficient_data m = true
      /\ clean_data df w1 = (w', inl (ValueError m))
      /\ optimize_portfolio_endpoint risk_level max_weight w
         = (w', inl (HTTPException 422 (CleaningFailed (ValueError m)))))
  /\ forall (short : Frame float) (wa wb : world) (e : exn),
       optimize_portfolio short risk_level max_weight wa = (wb, inl e) ->
       eigvals (annual_cov short) = inl e
       \/ exists m, e = ValueError m /\ insufficient_data m = false.
Proof.
  intros Hreceive Hshort. split.
  - exact (short_frame_rejected_after_cleaning
             risk_level max_weight w Hreceive Hshort).
  - intros short wa wb e Hraise.
    destruct (optimize_raises _ _ _ _ Hraise)
      as [->|[->|[->|[(cause & ->)|Heig]]]];
      [right; eexists; split; reflexivity ..| now left].
Qed.

Lemma repeated_rows_are_too_few_once_cleaned :
  let L := libraries repeated in
  exists w1,
    receive (Fin 0.5) (Fin 0.5) start = (w1, inr repeated)
    /\ (nrows (snd (cleaned repeated)) < 30
        \/ ncols (snd (cleaned repeated)) < 2)%nat
    /\ (exists w' m,
           insufficient_data m = true
           /\ clean_data repeated w1 = (w', inl (ValueError m))
           /\ optimize_portfolio_endpoint (Fin 0.5) (Fin 0.5) start
              = (w', inl (HTTPException 422
                            (CleaningFailed (ValueError m)))))
    /\ forall (short : Frame float) (wa wb : world) (e : exn),
         optimize_portfolio short (Fin 0.5) (Fin 0.5) wa = (wb, inl e) ->
         eigvals (annual_cov short) = inl e
         \/ exists m, e = ValueError m /\ insufficient_data m = false.
Proof.
  intros L.
  assert (Hreceive : receive (Fin 0.5) (Fin 0.5) start
                     = (fst (receive (Fin 0.5) (Fin 0.5) start), inr repeated))
    by (vm_compute; reflexivity).
  assert (Hshort : (nrows (snd (cleaned repeated)) < 30
                    \/ ncols (snd (cleaned repeated)) < 2)%nat)
    by (left; vm_compute; lia).
  exists (fst (receive (Fin 0.5) (Fin 0.5) start)).
  split; [exact Hreceive|]. split; [exact Hshort|].
  exact (minima_checked_by_clean_data_only (L := L)
           (Fin 0.5) (Fin 0.5) start Hreceive Hshort).
Defined.

(** A frame of five observations handed to [optimize_portfolio] is not
    turned down for its size: with no library does the run end in a
    too-little-data error, unless [np.linalg.eigvals] itself raised it,
    and with the stand-in libraries a portfolio comes back. *)
Lemma five_observations_are_optimised :
  nrows five_days = 5%nat
  /\ (forall (L : Libraries) (risk_level max_weight : float)
             (w w' : world) (m : message),
         insufficient_data m = true ->
         optimize_portfolio five_days risk_level max_weight w
         = (w', inl (ValueError m)) ->
         eigvals (annual_cov five_days) = inl (ValueError m))
  /\ exists w' res,
       optimize_portfolio (L := libraries sample)
         five_days (Fin 0.5) (Fin 0.5) start
       = (w', inr res).
Proof.
  split; [reflexivity|]. split.
  - intros L risk_level max_weight w w' m Hm Hraise.
    destruct (optimize_raises _ _ _ _ Hraise)
      as [E|[E|[E|[(cause & E)|Heig]]]];
      try exact Heig; inversion E; subst; discriminate Hm.
  - exists start. eexists. vm_compute. reflexivity.
Qed.

End Minima.

(* ===================================================================== *)
(** * The columns of the cleaned frame *)
(* ===================================================================== *)

Module KeptColumns.

Import Statistics Cleaning CleanFrames StandIn Fixtures.

(** A mask computed from the entries selects what the test keeps. *)
Lemma select_by_test (keep : string -> bool) (names : list string) :
  select (map keep names) names = filter keep names.
Proof.
  induction names as [|c names IH]; simpl; [reflexivity|].
  destruct (keep c); now rewrite IH.
Qed.

Lemma items_names {C} (missing : C) (df : Frame C) :
  map fst (items missing df) = columns df.
Proof.
  unfold items. apply map_fst_combine.
  unfold frame_columns, ncols. now rewrite length_map, length_seq.
Qed.

(** Under a header without repeated names a column is known by its
    name. *)
Lemma column_by_name (its : list (string * list float))
    (a b : string * list float) :
  NoDup (map fst its) -> In a its -> In b its -> fst a = fst b -> a = b.
Proof.
  induction its as [|it its IH]; simpl; intros Hnames Ha Hb E; [easy|].
  inversion Hnames as [|? ? Hfresh Hrest]. subst.
  destruct Ha as [->|Ha], Hb as [->|Hb].
  - reflexivity.
  - exfalso. apply Hfresh. rewrite E. now apply in_map.
  - exfalso. apply Hfresh. rewrite <- E. now apply in_map.
  - now apply IH.
Qed.

(** The name of a column is among the names selected exactly when the
    column itself passes the test. *)
Lemma selected_by_name (over : string * list float -> bool)
    (its : list (string * list float)) (it : string * list float) :
  NoDup (map fst its) -> In it its ->
  existsb (String.eqb (fst it)) (map fst (filter over its)) = over it.
Proof.
  intros Hnames Hit. destruct (over it) eqn:Hover.
  - apply existsb_exists. exists (fst it). split; [|apply String.eqb_refl].
    apply in_map. apply filter_In. now split.
  - destruct (existsb _ _) eqn:E; [|reflexivity].
    apply existsb_exists in E. destruct E as (name & Hname & Heq).
    apply String.eqb_eq in Heq. apply in_map_iff in Hname.
    destruct Hname as (other & Hother & Hin).
    apply filter_In in Hin. destruct Hin as [Hin Htrue].
    assert (it = other)
      by (apply (column_by_name its); congruence).
    congruence.
Qed.

(** X3: under a header without repeated names, the columns of the frame
    [clean_data] returns are, in header order, exactly the columns for
    which ten times the number of cells that are missing, infinite or text
    does not exceed the number of rows left once duplicates are removed.
    A column with exactly one tenth of its cells missing is kept. *)
Theorem columns_kept_up_to_one_tenth (df : Frame cell) (w w' : world)
    (df' : Frame float) :
  clean_data df w = (w', inr df') ->
  NoDup (columns df) ->
  let converted :=
    map_cells inf_to_nan
      (map_cells to_numeric_coerce
         (drop_duplicated_index (drop_duplicates df))) in
  columns df'
  = map fst
      (filter (fun it =>
                 (10 * List.length (filter isna (snd it))
                  <=? nrows converted)%nat)
              (items NaN converted)).
Proof.
  intros Hclean Hnames converted.
  destruct (clean_data_returns _ _ Hclean) as (-> & _ & _).
  pose proof (columns_dropped_above_one_tenth df) as Hdropped.
  cbv zeta in Hdropped. fold converted in Hdropped.
  set (over := fun it : string * list float =>
                 (nrows converted
                  <? 10 * List.length (filter isna (snd it)))%nat) in *.
  assert (Hcols : columns (snd (cleaned df))
                  = filter (fun c => negb (existsb (String.eqb c)
                                             (fst (cleaned df))))
                           (columns converted)).
  { unfold cleaned. cbn [fst snd]. fold converted.
    destruct (map fst (filter _ (nan_percentage converted))) as [|c names].
    - cbn [dropna columns existsb negb]. symmetry. now apply filter_all.
    - cbn [dropna drop_columns columns]. apply select_by_test. }
  rewrite Hcols, Hdropped, <- (items_names NaN converted), filter_map_comm.
  f_equal. apply filter_ext_in. intros it Hit.
  rewrite selected_by_name; [|rewrite items_names; exact Hnames|exact Hit].
  unfold over. now rewrite Nat.leb_antisym.
Qed.

Lemma gappy_loses_its_fourth_column :
  let df' := snd (cleaned gappy) in
  let converted :=
    map_cells inf_to_nan
      (map_cells to_numeric_coerce
         (drop_duplicated_index (drop_duplicates gappy))) in
  clean_data gappy start
  = (mkWorld [DroppingColumns ["DDD"%string];
              Processed (30, 4)%nat (30, 3)%nat] upload,
     inr df')
  /\ NoDup (columns gappy)
  /\ columns df' = sample_columns
  /\ columns df'
     = map fst
         (filter (fun it =>
                    (10 * List.length (filter isna (snd it))
                     <=? nrows converted)%nat)
                 (items NaN converted)).
Proof.
  intros df' converted.
  assert (H1 : clean_data gappy start
               = (mkWorld [DroppingColumns ["DDD"%string];
                           Processed (30, 4)%nat (30, 3)%nat] upload,
                  inr df')) by (vm_compute; reflexivity).
  assert (H2 : NoDup (columns gappy)).
  { repeat (constructor; [simpl; intuition discriminate|]). constructor. }
  split; [exact H1|]. split; [exact H2|].
  split; [vm_compute; reflexivity|].
  exact (columns_kept_up_to_one_tenth gappy start H1 H2).
Defined.

End KeptColumns.

(* ===================================================================== *)
(** * The statistics of a cleaned frame *)
(* ===================================================================== *)

Module Magnitudes.

Import FloatFacts Statistics Cleaning CleanFrames StandIn Fixtures.

Local Open Scope Q_scope.

Lemma count_cons (x : Q) (xs : list Q) : count (x :: xs) == count xs + 1.
Proof.
  unfold count. cbn [List.length].
  rewrite Nat2Z.inj_succ, <- Z.add_1_r, inject_Z_plus. reflexivity.
Qed.

Lemma count_nonneg (xs : list Q) : 0 <= count xs.
Proof.
  unfold count. change 0 with (inject_Z 0). rewrite <- Zle_Qle. lia.
Qed.

Lemma count_positive (xs : list Q) : xs <> [] -> 0 < count xs.
Proof.
  intros Hne. pose proof (count_nonneg xs) as H.
  pose proof (count_nonzero Hne) as Hz.
  destruct (Qlt_le_dec 0 (count xs)) as [|Hle]; [assumption|].
  exfalso. apply Hz. now apply Qle_antisym.
Qed.

Lemma count_at_least_two (xs : list Q) :
  (2 <= List.length xs)%nat -> 2 <= count xs.
Proof.
  intros H. unfold count. change 2 with (inject_Z 2).
  rewrite <- Zle_Qle. lia.
Qed.

(** A sum of terms of magnitude at most [M] has magnitude at most [M] times
    their number. *)
Lemma Qsum_within (M : Q) (terms : list Q) :
  Forall (fun q => Qabs q <= M) terms ->
  Qabs (Qsum terms) <= count terms * M.
Proof.
  induction 1 as [|x terms Hx _ IH].
  - change (Qabs (Qsum [])) with 0. change (count []) with 0. lra.
  - rewrite count_cons. change (Qsum (x :: terms)) with (x + Qsum terms).
    pose proof (Qabs_triangle x (Qsum terms)). lra.
Qed.

Lemma quotient_within (s n M : Q) :
  0 < n -> Qabs s <= M * n -> Qabs (s / n) <= M.
Proof.
  intros Hn Hs. unfold Qdiv. rewrite Qabs_Qmult, Qabs_Qinv.
  rewrite (Qabs_pos n) by now apply Qlt_le_weak.
  now apply Qle_shift_div_r.
Qed.

(** The mean of returns of magnitude at most [B] is of magnitude at most
    [B]. *)
Lemma daily_mean_within (B : Q) (xs : list Q) :
  xs <> [] -> Forall (fun q => Qabs q <= B) xs -> Qabs (daily_mean xs) <= B.
Proof.
  intros Hne Hxs. unfold daily_mean.
  apply quotient_within; [now apply count_positive|].
  pose proof (Qsum_within Hxs). lra.
Qed.

Lemma deviation_within (B x m : Q) :
  Qabs x <= B -> Qabs m <= B -> Qabs (x - m) <= 2 * B.
Proof.
  intros Hx Hm. unfold Qminus.
  pose proof (Qabs_triangle x (- m)) as H. rewrite Qabs_opp in H. lra.
Qed.

(** The sample covariance of two such series is of magnitude at most
    [8 * B * B]: each product of deviations is at most [4 * B * B], and
    with [n >= 2] terms [n / (n - 1)] is at most 2. *)
Lemma sample_covariance_within (B : Q) (xs ys : list Q) :
  List.length xs = List.length ys -> (2 <= List.length xs)%nat ->
  Forall (fun q => Qabs q <= B) xs -> Forall (fun q => Qabs q <= B) ys ->
  Qabs (sample_covariance xs ys) <= 8 * (B * B).
Proof.
  intros Hlen Htwo Hxs Hys.
  assert (Hx : xs <> []) by (intros ->; simpl in Htwo; lia).
  assert (Hy : ys <> []) by (intros ->; simpl in Hlen, Htwo; lia).
  pose proof (@daily_mean_within B xs Hx Hxs) as Hmx.
  pose proof (@daily_mean_within B ys Hy Hys) as Hmy.
  assert (HB : 0 <= B).
  { eapply Qle_trans; [apply Qabs_nonneg | exact Hmx]. }
  pose proof (count_at_least_two xs Htwo) as Hn.
  unfold sample_covariance.
  set (terms := map (fun p => (fst p - daily_mean xs)
                              * (snd p - daily_mean ys))
                    (combine xs ys)).
  assert (Hterms : Forall (fun q => Qabs q <= 4 * (B * B)) terms).
  { apply Forall_forall. intros q Hq. apply in_map_iff in Hq.
    destruct Hq as ([x y] & <- & Hin). cbn [fst snd].
    pose proof (in_combine_l _ _ _ _ Hin) as Hxin.
    pose proof (in_combine_r _ _ _ _ Hin) as Hyin.
    rewrite Forall_forall in Hxs, Hys.
    pose proof (@deviation_within B x (daily_mean xs) (Hxs _ Hxin) Hmx)
      as Hdx.
    pose proof (@deviation_within B y (daily_mean ys) (Hys _ Hyin) Hmy)
      as Hdy.
    rewrite Qabs_Qmult.
    assert (Hprod : Qabs (x - daily_mean xs) * Qabs (y - daily_mean ys)
                    <= (2 * B) * (2 * B)).
    { apply Qmult_le_compat_nonneg; split;
        try apply Qabs_nonneg; assumption. }
    lra. }
  assert (Hcount : count terms == count xs).
  { unfold count, terms. rewrite length_map, length_combine, <- Hlen.
    now rewrite Nat.min_id. }
  pose proof (Qsum_within Hterms) as Hsum. rewrite Hcount in Hsum.
  apply quotient_within; [lra|].
  assert (0 <= B * B) by now apply Qmult_le_0_compat.
  set (K := B * B) in *. set (n := count xs) in *. nra.
Qed.

Lemma bounded_values (B : Q) (l : list float) :
  Forall (fun x => is_finite x = true) l ->
  Forall (fun x => match x with Fin q => Qabs q <= B | _ => True end) l ->
  exists qs, l = map Fin qs /\ Forall (fun q => Qabs q <= B) qs.
Proof.
  induction l as [|x l IH]; intros Hfinite Hwithin.
  - exists []. now split.
  - inversion Hfinite as [|? ? Hx Hl]. inversion Hwithin as [|? ? Hb Hw].
    subst. destruct (IH Hl Hw) as (qs & -> & Hqs).
    destruct x; try discriminate. exists (q :: qs). split; [reflexivity|].
    now constructor.
Qed.

Lemma bounded_columns (B : Q) (cols : list (list float)) :
  Forall (Forall (fun x => is_finite x = true)) cols ->
  Forall (Forall (fun x => match x with
                           | Fin q => Qabs q <= B
                           | _ => True
                           end)) cols ->
  exists returns,
    cols = map (map Fin) returns
    /\ Forall (Forall (fun q => Qabs q <= B)) returns.
Proof.
  induction cols as [|c cols IH]; intros Hfinite Hwithin.
  - exists []. now split.
  - inversion Hfinite as [|? ? Hc Hcs]. inversion Hwithin as [|? ? Hb Hbs].
    subst. destruct (IH Hcs Hbs) as (returns & -> & Hreturns).
    destruct (@bounded_values B c Hc Hb) as (qs & -> & Hqs).
    exists (qs :: returns). split; [reflexivity|]. now constructor.
Qed.

(** The bound on the cells can be checked by evaluation. *)
Lemma cells_within_checked (B : Q) (df : Frame float) :
  forallb (forallb (fun x => match x with
                             | Fin q => Qle_bool (Qabs q) B
                             | _ => true
                             end))
          (frame_columns NaN df) = true ->
  cells_within B df.
Proof.
  intros H. unfold cells_within. apply Forall_forall. intros c Hc.
  apply Forall_forall. intros x Hx.
  rewrite forallb_forall in H. specialize (H c Hc).
  rewrite forallb_forall in H. specialize (H x Hx).
  destruct x; try exact I. now apply Qle_bool_iff.
Qed.

(** X7: on a frame that [clean_data] returned, with cells of magnitude at
    most [safe_magnitude], the two checks on the statistics (lines 127 to
    131) do not fire: [estimate] returns the annualised mean and
    covariance, every entry a number, the means of magnitude at most 252
    times that of the cells and the covariances at most 2016 times its
    square. *)
Theorem statistics_defined_and_bounded (df : Frame cell) (w w' : world)
    (df' : Frame float) :
  clean_data df w = (w', inr df') ->
  cells_within safe_magnitude df' ->
  (forall w0, estimate df' w0 = (w0, inr (annual_mean df', annual_cov df')))
  /\ Forall (fun m => exists q, Float.eqv m (Fin q)
                                /\ Qabs q <= 252 * safe_magnitude)
            (map snd (annual_mean df'))
  /\ Forall (Forall (fun c => exists q,
                         Float.eqv c (Fin q)
                         /\ Qabs q
                            <= 2016 * (safe_magnitude * safe_magnitude)))
            (annual_cov df').
Proof.
  intros Hclean Hwithin.
  destruct (clean_data_returns _ _ Hclean) as (-> & Hrows & _).
  set (df' := snd (cleaned df)) in *.
  pose proof (cleaned_all_finite df) as Hfinite. fold df' in Hfinite.
  assert (Htwo : (2 <= nrows df')%nat) by lia.
  split.
  { intros w0. destruct (statistics_defined Hfinite Htwo) as [Hmu HS].
    unfold estimate. now rewrite Hmu, HS. }
  destruct (@bounded_columns safe_magnitude _ Hfinite Hwithin)
    as (returns & Hcells & Hreturns).
  rewrite Forall_forall in Hreturns.
  assert (Hlen : forall c, In c returns -> List.length c = nrows df').
  { pose proof (frame_columns_length NaN df') as H. rewrite Hcells in H.
    rewrite Forall_forall in H. intros c Hc.
    rewrite <- (H (map Fin c)); [now rewrite length_map | now apply in_map]. }
  assert (Hne : forall c, In c returns -> c <> []).
  { intros c Hc ->. specialize (Hlen _ Hc). simpl in Hlen. lia. }
  assert (Hnames : List.length (columns df')
                   = List.length (map (fun m => (m * TRADING_DAYS)%fl)
                                      (frame_mean df'))).
  { unfold frame_mean, frame_columns.
    now rewrite !length_map, length_seq. }
  unfold annual_mean, annual_cov.
  rewrite (map_snd_combine _ _ Hnames).
  unfold frame_mean, frame_cov. rewrite Hcells. split.
  - apply Forall_forall. intros m Hm.
    rewrite !map_map in Hm. apply in_map_iff in Hm.
    destruct Hm as (c & <- & Hc).
    exists (daily_mean c * 252). split.
    + apply mul_finite; [now apply mean_finite, Hne | apply finite_refl].
    + pose proof (@daily_mean_within safe_magnitude c (Hne _ Hc)
                    (Hreturns _ Hc)) as Hm.
      rewrite Qabs_Qmult. change (Qabs 252) with 252. lra.
  - apply Forall_forall. intros row Hrow.
    rewrite !map_map in Hrow. apply in_map_iff in Hrow.
    destruct Hrow as (ci & <- & Hci).
    apply Forall_forall. intros x Hx.
    rewrite !map_map in Hx. apply in_map_iff in Hx.
    destruct Hx as (cj & <- & Hcj).
    assert (Hsame : List.length ci = List.length cj)
      by now rewrite (Hlen _ Hci), (Hlen _ Hcj).
    assert (Hci2 : (2 <= List.length ci)%nat) by now rewrite (Hlen _ Hci).
    exists (sample_covariance ci cj * 252). split.
    + apply mul_finite; [|apply finite_refl].
      now apply cov_pair_finite.
    + pose proof (@sample_covariance_within safe_magnitude ci cj Hsame Hci2
                    (Hreturns _ Hci) (Hreturns _ Hcj)) as Hcov.
      rewrite Qabs_Qmult. change (Qabs 252) with 252. lra.
Qed.

Lemma sample_statistics_are_defined_and_bounded :
  let df' := snd (cleaned sample) in
  clean_data sample start
  = (mkWorld (stdout start ++ [Processed (shape sample) (shape sample)])
             (file start),
     inr df')
  /\ cells_within safe_magnitude df'
  /\ (forall w0,
         estimate df' w0 = (w0, inr (annual_mean df', annual_cov df')))
  /\ Forall (fun m => exists q, Float.eqv m (Fin q)
                                /\ Qabs q <= 252 * safe_magnitude)
            (map snd (annual_mean df'))
  /\ Forall (Forall (fun c => exists q,
                         Float.eqv c (Fin q)
                         /\ Qabs q
                            <= 2016 * (safe_magnitude * safe_magnitude)))
            (annual_cov df').
Proof.
  intros df'.
  assert (H1 : clean_data sample start
               = (mkWorld (stdout start
                           ++ [Processed (shape sample) (shape sample)])
                          (file start),
                  inr df')) by (vm_compute; reflexivity).
  assert (H2 : cells_within safe_magnitude df').
  { apply cells_within_checked. vm_compute. reflexivity. }
  split; [exact H1|]. split; [exact H2|].
  exact (statistics_defined_and_bounded sample start H1 H2).
Defined.

End Magnitudes.
